(** * WebFiles: the metadata-consistent file store of [main.go]

    A shallow embedding of the upload / list / download / delete handlers and
    of the metadata functions of [src/main.go], followed by the properties of
    the store.

    Layout:
    - the Go library functions the handlers call ([path/filepath],
      [strings], [fmt], [net/url], [unicode/utf8], [encoding/json],
      [mime/multipart]);
    - the data model ([FileMeta], [FileStore]) and the process environment
      (upload directory, metadata file, clock, I/O faults);
    - the handlers, written once as programs over the primitive actions
      they perform, with a sequential interpreter ([exec]), an action log
      ([events]) and an interleaving scheduler ([run_sched]);
    - the functions of the page's script that address the handlers, the
      start-up checks, the session gate and the login handler;
    - the theorems. *)

From Stdlib Require Import ZArith List String Ascii Bool Lia DecimalString.
From stdpp Require Import base option list gmap strings.

Open Scope string_scope.
Open Scope list_scope.

(* ================================================================== *)
(** ** Go library functions used by the handlers *)
(* ================================================================== *)

(** Go strings are byte sequences; they are modelled by [string], whose
    characters are the 256 byte values. *)

(** [path/filepath] on a Unix target: the only separator is the slash. *)
Module filepath.

Definition IsPathSeparator (c : ascii) : bool := Ascii.eqb c "/".

(** Drop the separators at the head of a (reversed) path. *)
Fixpoint skip_seps (l : list ascii) : list ascii :=
  match l with
  | c :: l' => if IsPathSeparator c then skip_seps l' else l
  | [] => []
  end.

(** The characters before the first separator. *)
Fixpoint upto_sep (l : list ascii) : list ascii :=
  match l with
  | c :: l' => if IsPathSeparator c then [] else c :: upto_sep l'
  | [] => []
  end.

(** [filepath.Base]: the last element of the path; trailing separators
    are removed first; the empty path gives ".", a path of separators
    only gives "/". The two scans of the Go function run from the end of
    the string, hence the reversal. *)
Definition Base (path : string) : string :=
  if path =? "" then "."
  else
    let stripped := skip_seps (rev (list_ascii_of_string path)) in
    match upto_sep stripped with
    | [] => "/"
    | last => string_of_list_ascii (rev last)
    end.

(** [strings.Split(path, "/")]. *)
Fixpoint split (path : string) : list string :=
  match path with
  | EmptyString => [""]
  | String c rest =>
      if IsPathSeparator c then "" :: split rest
      else match split rest with
           | e :: es => String c e :: es
           | [] => [String c ""]
           end
  end.

(** One element of the path seen by [Clean]; [out] holds the elements
    kept so far, last one first. *)
Definition clean_step (rooted : bool) (out : list string) (e : string)
  : list string :=
  if (e =? "") || (e =? ".") then out
  else if e =? ".." then
    match out with
    | top :: rest => if top =? ".." then e :: out else rest
    | [] => if rooted then [] else [e]
    end
  else e :: out.

(** [filepath.Clean]: the shortest path equivalent to [path] by purely
    lexical processing (no empty and no "." element, inner ".." removed
    with the element before it, ".." at the root removed). *)
Definition Clean (path : string) : string :=
  let rooted :=
    match path with String c _ => IsPathSeparator c | EmptyString => false end in
  let kept := rev (fold_left (clean_step rooted) (split path) []) in
  let out := (if rooted then "/" else "") +:+ String.concat "/" kept in
  if out =? "" then "." else out.

(** [filepath.Join] of two elements: empty leading elements are ignored,
    the rest is joined with separators and cleaned. *)
Definition Join (a b : string) : string :=
  if a =? "" then (if b =? "" then "" else Clean b)
  else Clean (a +:+ "/" +:+ b).

End filepath.

(** [strings]. *)
Module gostrings.

(** [strings.LastIndex(s, sep)] for a one-byte [sep]: the index of the
    last occurrence, or -1. *)
Fixpoint LastIndex (s : string) (sep : ascii) : Z :=
  match s with
  | EmptyString => (-1)%Z
  | String c rest =>
      let i := LastIndex rest sep in
      if (0 <=? i)%Z then (i + 1)%Z
      else if Ascii.eqb c sep then 0%Z else (-1)%Z
  end.

(** The slice expressions [s[:i]] and [s[i:]]. *)
Definition slice_to (s : string) (i : Z) : string :=
  substring 0 (Z.to_nat i) s.
Definition slice_from (s : string) (i : Z) : string :=
  substring (Z.to_nat i) (String.length s - Z.to_nat i) s.

(** Does the byte occur in the string? *)
Fixpoint contains (s : string) (c : ascii) : bool :=
  match s with
  | EmptyString => false
  | String a rest => Ascii.eqb a c || contains rest c
  end.

End gostrings.

(** [fmt]. *)
Module fmt.

(** The verb [%d] applied to an [int64]. *)
Definition d (n : Z) : string := NilZero.string_of_int (Z.to_int n).

End fmt.

(** [net/url]. *)
Module url.

Definition ishex (c : ascii) : bool :=
  let n := nat_of_ascii c in
  (((48 <=? n) && (n <=? 57)) || ((97 <=? n) && (n <=? 102))
   || ((65 <=? n) && (n <=? 70)))%nat.

Definition unhex (c : ascii) : nat :=
  let n := nat_of_ascii c in
  (if (48 <=? n) && (n <=? 57) then n - 48
   else if (97 <=? n) && (n <=? 102) then n - 97 + 10
   else if (65 <=? n) && (n <=? 70) then n - 65 + 10
   else 0)%nat.

(** [url.QueryUnescape]: "%XY" becomes the byte XY, "+" becomes a space;
    a "%" not followed by two hexadecimal digits is an error ([None]). *)
Fixpoint QueryUnescape (s : string) : option string :=
  match s with
  | EmptyString => Some ""
  | String c rest =>
      if Ascii.eqb c "%" then
        match rest with
        | String a (String b rest') =>
            if ishex a && ishex b then
              String (ascii_of_nat (unhex a * 16 + unhex b))
                <$> QueryUnescape rest'
            else None
        | _ => None
        end
      else if Ascii.eqb c "+" then String " " <$> QueryUnescape rest
      else String c <$> QueryUnescape rest
  end.

End url.

(** [unicode/utf8]. *)
Module utf8.

Definition RuneSelf : nat := 128.   (* 0x80 *)
Definition locb : nat := 128.       (* 0b10000000 *)
Definition hicb : nat := 191.       (* 0b10111111 *)

(** The table [first] with [acceptRanges]: for the first byte of an
    encoding of several bytes, the length of the encoding and the range its
    second byte has to be in; [None] for a byte that starts no such
    encoding (the entries [as] and [xx] of the table). *)
Definition first (s0 : nat) : option (nat * (nat * nat)) :=
  (if s0 <? 194 then None                            (* 0x00-0xC1 *)
   else if s0 <=? 223 then Some (2, (locb, hicb))    (* 0xC2-0xDF *)
   else if s0 =? 224 then Some (3, (160, hicb))      (* 0xE0 *)
   else if s0 <=? 236 then Some (3, (locb, hicb))    (* 0xE1-0xEC *)
   else if s0 =? 237 then Some (3, (locb, 159))      (* 0xED *)
   else if s0 <=? 239 then Some (3, (locb, hicb))    (* 0xEE-0xEF *)
   else if s0 =? 240 then Some (4, (144, hicb))      (* 0xF0 *)
   else if s0 <=? 243 then Some (4, (locb, hicb))    (* 0xF1-0xF3 *)
   else if s0 =? 244 then Some (4, (locb, 143))      (* 0xF4 *)
   else None)%nat.                                   (* 0xF5-0xFF *)

(** The width [DecodeRuneInString] reports for the encoding at the head
    of [String c rest], and 0 when there is no well-formed encoding there
    (it then returns [RuneError] with width 1). *)
Definition size (c : ascii) (rest : string) : nat :=
  let s0 := nat_of_ascii c in
  if (s0 <? RuneSelf)%nat then 1%nat
  else
    match first s0 with
    | None => 0%nat
    | Some (sz, (lo, hi)) =>
        match rest with
        | EmptyString => 0%nat
        | String c1 rest1 =>
            let s1 := nat_of_ascii c1 in
            if ((s1 <? lo) || (hi <? s1))%nat then 0%nat
            else if (sz <=? 2)%nat then 2%nat
            else
              match rest1 with
              | EmptyString => 0%nat
              | String c2 rest2 =>
                  let s2 := nat_of_ascii c2 in
                  if ((s2 <? locb) || (hicb <? s2))%nat then 0%nat
                  else if (sz <=? 3)%nat then 3%nat
                  else
                    match rest2 with
                    | EmptyString => 0%nat
                    | String c3 _ =>
                        let s3 := nat_of_ascii c3 in
                        if ((s3 <? locb) || (hicb <? s3))%nat then 0%nat
                        else 4%nat
                    end
              end
        end
    end.

(** [utf8.ValidString]: the string is a sequence of well-formed encodings.
    [pending] counts the bytes still to pass of the encoding being read. *)
Fixpoint valid_from (pending : nat) (s : string) : bool :=
  match s with
  | EmptyString => true
  | String c rest =>
      match pending with
      | S k => valid_from k rest
      | O =>
          match size c rest with
          | O => false
          | S k => valid_from k rest
          end
      end
  end.

Definition ValidString (s : string) : bool := valid_from 0 s.

(** The bytes of a string are all below [RuneSelf]. *)
Definition ascii_only (s : string) : bool :=
  forallb (fun c => (nat_of_ascii c <? RuneSelf)%nat) (list_ascii_of_string s).

End utf8.

(** [encoding/json]: the strings. *)
Module json.

(** The replacement character U+FFFD, in UTF-8. *)
Definition replacement : string :=
  String "239" (String "191" (String "189" "")).

(** A Go string as the encoder writes it and the decoder reads it back:
    the well-formed encodings are kept, and every byte that belongs to none
    is written as U+FFFD. [pending] counts the bytes still to copy of the
    encoding being read. *)
Fixpoint coerce (pending : nat) (s : string) : string :=
  match s with
  | EmptyString => ""
  | String c rest =>
      match pending with
      | S k => String c (coerce k rest)
      | O =>
          match utf8.size c rest with
          | O => replacement +:+ coerce 0 rest
          | S k => String c (coerce k rest)
          end
      end
  end.

Definition text (s : string) : string := coerce 0 s.

End json.

(** [encoding/json], at the level of JSON values: a document is the value
    it denotes. The text produced by [json.MarshalIndent] and parsed back by
    [json.Unmarshal] is not modelled: numbers are the integers an [int64]
    field produces, and a string is the value the decoder reads. A nil
    slice, which the encoder writes as null, is not told apart from an
    empty one. *)
#[warnings="-register-all"]
Inductive Json : Type :=
| JNull
| JBool (b : bool)
| JNum (n : Z)
| JStr (s : string)
| JArr (items : list Json)
| JObj (fields : list (string * Json)).

(** The JSON value of a Go string handed to the encoder. *)
Definition JString (s : string) : Json := JStr (json.text s).

(** [github.com/gofiber/fiber/v2]: status codes and the responses the
    handlers send. *)
Module fiber.

Definition StatusOK : Z := 200.
Definition StatusBadRequest : Z := 400.
Definition StatusNotFound : Z := 404.
Definition StatusInternalServerError : Z := 500.

Inductive Response : Type :=
| JSON (status : Z) (body : Json)
    (** [c.Status(status).JSON(body)] *)
| SendString (status : Z) (body : string)
    (** [c.Status(status).SendString(body)] *)
| Download (filename : string) (content : list Byte.byte)
    (** [c.Download(path, filename)] when the file at [path] can be sent:
        its bytes, with [filename] in the Content-Disposition header *)
| SendFileFailed (path : string)
    (** [c.Download(path, filename)] when the file cannot be sent *).

(** [fiber.Map{"error": msg}] *)
Definition error_map (msg : string) : Json := JObj [("error", JString msg)].

End fiber.

(** [mime/multipart]: the [FileHeader] returned by [c.FormFile], which
    reads the form with [multipart.Reader.ReadForm]. *)
Module multipart.

Record FileHeader : Type := {
  Filename : string;
  Size : Z;
  Content : list Byte.byte
}.

(** [Part.FileName], from which [ReadForm] fills [FileHeader.Filename]:
    the filename parameter of the part's Content-Disposition header,
    reduced to its last element (RFC 7578, section 4.2); the empty string
    when the parameter is missing or empty. *)
Definition FileName (filename : string) : string :=
  if filename =? "" then "" else filepath.Base filename.

End multipart.

(** A Go [error] of the [os] package: its text and whether
    [os.IsNotExist] holds of it. The nil error is [None]. *)
Record oserror : Type := { notexist : bool; Error : string }.

Definition IsNotExist (err : option oserror) : bool :=
  match err with
  | Some e => notexist e
  | None => false
  end.

Definition ENOENT : oserror :=
  {| notexist := true; Error := "no such file or directory" |}.

(* ================================================================== *)
(** ** Data model *)
(* ================================================================== *)

Record FileMeta : Type := {
  Filename : string;   (* `json:"filename"` *)
  Size : Z;            (* `json:"size"`, an int64 *)
  Path : string        (* `json:"-"` *)
}.

(** [mu] is the state of the mutex: [true] when some goroutine holds it. *)
Record FileStore : Type := {
  Files : list FileMeta;   (* `json:"files"` *)
  mu : bool                (* `json:"-"` *)
}.

Definition uploadDir : string := "./uploads".
Definition metadataFile : string := "./filedata.json".

Definition filenames (fs : list FileMeta) : list string := map Filename fs.

(** *** JSON encoding of the data model *)

Definition int64_range (n : Z) : bool :=
  ((- 2 ^ 63 <=? n) && (n <? 2 ^ 63))%Z.

(** [json.Marshal] of a [FileMeta]: the field tagged "-" is left out. *)
Definition marshal_meta (m : FileMeta) : Json :=
  JObj [("filename", JString (Filename m)); ("size", JNum (Size m))].

Definition marshal_files (fs : list FileMeta) : Json :=
  JArr (map marshal_meta fs).

(** The anonymous struct [{Files []FileMeta `json:"files"`}] of
    [saveMetadataUnlocked]. *)
Definition marshal_store (fs : list FileMeta) : Json :=
  JObj [("files", marshal_files fs)].

(** [json.Unmarshal] into a [FileMeta]: a key sets the field carrying that
    tag when the value has the field's type and is skipped otherwise (the
    decoder records the type error and goes on); [Path] is never set. Keys
    are compared exactly, as the encoder writes them (the decoder also
    takes a key that differs from the tag by the case of its letters; no
    document written by [saveMetadataUnlocked] has one). *)
Definition set_field (m : FileMeta) (kv : string * Json) : FileMeta :=
  let (k, v) := kv in
  if k =? "filename" then
    match v with
    | JStr s => {| Filename := s; Size := Size m; Path := Path m |}
    | _ => m
    end
  else if k =? "size" then
    match v with
    | JNum n =>
        if int64_range n
        then {| Filename := Filename m; Size := n; Path := Path m |}
        else m
    | _ => m
    end
  else m.

Definition decode_meta (j : Json) (m : FileMeta) : FileMeta :=
  match j with
  | JObj fields => fold_left set_field fields m
  | _ => m
  end.

Definition zero_meta : FileMeta := {| Filename := ""; Size := 0; Path := "" |}.

(** A JSON array decoded into a slice: element [i] is decoded into the
    slice's element [i] when it has one, and into a zero value otherwise;
    the slice ends up with the length of the array. *)
Fixpoint decode_slice (items : list Json) (old : list FileMeta)
  : list FileMeta :=
  match items with
  | [] => []
  | j :: items' =>
      decode_meta j (hd zero_meta old) :: decode_slice items' (tl old)
  end.

Definition decode_files (v : Json) (old : list FileMeta) : list FileMeta :=
  match v with
  | JArr items => decode_slice items old
  | _ => old
  end.

(** [json.Unmarshal(data, &webfiles)]: only the exported, tagged field
    [Files] is a target. *)
Definition unmarshal_store (j : Json) (old : list FileMeta) : list FileMeta :=
  match j with
  | JObj fields =>
      fold_left
        (fun fs (kv : string * Json) =>
           if fst kv =? "files" then decode_files (snd kv) fs else fs)
        fields old
  | _ => old
  end.

(* ================================================================== *)
(** ** The process and its environment *)
(* ================================================================== *)

(** What is in [metadataFile]: a JSON document, or bytes that do not parse. *)
Inductive FileData : Type :=
| Doc (j : Json)
| Garbage.

(** The state a request runs in: the package-level [webfiles], what is on
    disk (the content found at each cleaned path, relative to the working
    directory) and the metadata file. Directories are not told apart from
    files: a system call that fails because of one is a fault of [Env]. *)
Record World : Type := {
  webfiles : FileStore;
  disk : gmap string (list Byte.byte);
  metadata : option FileData
}.

(** What the outside decides during one request: the clock reading and
    which system calls fail. *)
Record Env : Type := {
  now : Z;                        (* time.Now().UnixNano() *)
  mkdir_err : option oserror;     (* os.MkdirAll(uploadDir, 0755) *)
  save_err : option oserror;      (* c.SaveFile *)
  remove_err : option oserror;    (* os.Remove of a file that exists *)
  write_err : option oserror;     (* os.WriteFile(metadataFile, ...) *)
  read_err : option oserror       (* os.ReadFile(metadataFile) *)
}.

(** The primitive actions of the handlers. Calls to [log] are left out:
    they touch neither the store, the disk nor the response. *)
Inductive Op : Type :=
| MuLock                                      (* webfiles.mu.Lock() *)
| MuUnlock                                    (* webfiles.mu.Unlock() *)
| LoadFiles                                   (* read webfiles.Files *)
| StoreFiles (fs : list FileMeta)             (* webfiles.Files = fs *)
| TimeNow                                     (* time.Now().UnixNano() *)
| MkdirAll (path : string)
| Stat (path : string)                        (* the error of os.Stat *)
| SaveFile (path : string) (body : list Byte.byte)
| Remove (path : string)
| SendFile (path : string)
| StatMetadata                                (* os.Stat(metadataFile) *)
| ReadMetadata                                (* os.ReadFile(metadataFile) *)
| WriteMetadata (doc : Json).                 (* os.WriteFile(metadataFile) *)

Definition Res (o : Op) : Type :=
  match o with
  | MuLock | MuUnlock | StoreFiles _ => unit
  | LoadFiles => list FileMeta
  | TimeNow => Z
  | MkdirAll _ | Stat _ | SaveFile _ _ | Remove _ | StatMetadata
  | WriteMetadata _ => option oserror
  | SendFile _ => option (list Byte.byte)
  | ReadMetadata => (FileData + oserror)%type
  end.

Definition set_files (fs : list FileMeta) (w : World) : World :=
  {| webfiles := {| Files := fs; mu := mu (webfiles w) |};
     disk := disk w; metadata := metadata w |}.

Definition set_mu (b : bool) (w : World) : World :=
  {| webfiles := {| Files := Files (webfiles w); mu := b |};
     disk := disk w; metadata := metadata w |}.

Definition set_disk (d : gmap string (list Byte.byte)) (w : World) : World :=
  {| webfiles := webfiles w; disk := d; metadata := metadata w |}.

Definition set_metadata (m : option FileData) (w : World) : World :=
  {| webfiles := webfiles w; disk := disk w; metadata := m |}.

(** The file a path names: the empty path names nothing, any other path
    names what its cleaned form names. *)
Definition lookup_path (w : World) (path : string) : option (list Byte.byte) :=
  if path =? "" then None else disk w !! filepath.Clean path.

(** One action in a world. [None]: the action cannot proceed (the mutex is
    held, [Lock] blocks). A write that fails is taken to leave no trace
    (what a partial write leaves behind is not modelled). *)
Definition perform (env : Env) (o : Op) (w : World) : option (Res o * World) :=
  match o return option (Res o * World) with
  | MuLock => if mu (webfiles w) then None else Some (tt, set_mu true w)
  | MuUnlock => Some (tt, set_mu false w)
  | LoadFiles => Some (Files (webfiles w), w)
  | StoreFiles fs => Some (tt, set_files fs w)
  | TimeNow => Some (now env, w)
  | MkdirAll _ => Some (mkdir_err env, w)
  | Stat path =>
      Some (match lookup_path w path with
            | Some _ => None
            | None => Some ENOENT
            end, w)
  | SaveFile path body =>
      match save_err env with
      | Some e => Some (Some e, w)
      | None => Some (None, set_disk (<[filepath.Clean path := body]> (disk w)) w)
      end
  | Remove path =>
      match lookup_path w path with
      | None => Some (Some ENOENT, w)
      | Some _ =>
          match remove_err env with
          | Some e => Some (Some e, w)
          | None => Some (None, set_disk (delete (filepath.Clean path) (disk w)) w)
          end
      end
  | SendFile path => Some (lookup_path w path, w)
  | StatMetadata =>
      Some (match metadata w with Some _ => None | None => Some ENOENT end, w)
  | ReadMetadata =>
      match metadata w, read_err env with
      | Some data, None => Some (inl data, w)
      | Some _, Some e => Some (inr e, w)
      | None, _ => Some (inr ENOENT, w)
      end
  | WriteMetadata doc =>
      match write_err env with
      | Some e => Some (Some e, w)
      | None => Some (None, set_metadata (Some (Doc doc)) w)
      end
  end.

(** A handler is a tree of actions: each action is followed by what the
    handler does with its result. *)
Inductive Prog (A : Type) : Type :=
| Ret (a : A)
| Act (o : Op) (k : Res o -> Prog A).

Arguments Ret {A} a.
Arguments Act {A} o k.

Fixpoint bind {A B : Type} (p : Prog A) (f : A -> Prog B) : Prog B :=
  match p with
  | Ret a => f a
  | Act o k => Act o (fun r => bind (k r) f)
  end.

#[export] Instance Prog_ret : MRet Prog := @Ret.
#[export] Instance Prog_bind : MBind Prog := fun A B f p => bind p f.

Definition call (o : Op) : Prog (Res o) := Act o Ret.

(** Sequential execution of a handler: the value it returns, if it returns
    ([None] when it blocks on the mutex), and the world it leaves. *)
Fixpoint exec {A : Type} (env : Env) (p : Prog A) (w : World)
  : option A * World :=
  match p with
  | Ret a => (Some a, w)
  | Act o k =>
      match perform env o w with
      | Some (r, w') => exec env (k r) w'
      | None => (None, w)
      end
  end.

(** The actions a handler performs, in order, each with the state of the
    mutex when it is performed. *)
Fixpoint events {A : Type} (env : Env) (p : Prog A) (w : World)
  : list (Op * bool) :=
  match p with
  | Ret _ => []
  | Act o k =>
      (o, mu (webfiles w)) ::
      match perform env o w with
      | Some (r, w') => events env (k r) w'
      | None => []
      end
  end.

(** Concurrent requests: each goroutine is a handler with its own
    environment; one step of the schedule lets one goroutine perform its
    next action (nothing happens when it has returned or is blocked). *)
Definition step_thread {A : Type} (t : Env * Prog A) (w : World)
  : (Env * Prog A) * World :=
  match snd t with
  | Ret _ => (t, w)
  | Act o k =>
      match perform (fst t) o w with
      | Some (r, w') => ((fst t, k r), w')
      | None => (t, w)
      end
  end.

Fixpoint run_sched {A : Type} (sched : list nat) (ts : list (Env * Prog A))
  (w : World) : list (Env * Prog A) * World :=
  match sched with
  | [] => (ts, w)
  | i :: sched' =>
      match ts !! i with
      | Some t =>
          let (t', w') := step_thread t w in
          run_sched sched' (<[i := t']> ts) w'
      | None => run_sched sched' ts w
      end
  end.

(* ================================================================== *)
(** ** Metadata functions *)
(* ================================================================== *)

(** [webfiles.mu.Lock()] followed by [defer webfiles.mu.Unlock()]: the
    mutex is taken, and released when the function returns. *)
Definition locked {A : Type} (body : Prog A) : Prog A :=
  call MuLock ;;
  r ← body;
  call MuUnlock ;;
  mret r.

(** [json.MarshalIndent] cannot fail on this struct (strings and
    integers only), so the only error is the one of [os.WriteFile]. *)
Definition saveMetadataUnlocked : Prog (option oserror) :=
  files ← call LoadFiles;
  let data := marshal_store files in
  call (WriteMetadata data).

Definition saveMetadata : Prog (option oserror) :=
  locked saveMetadataUnlocked.

Definition loadMetadata : Prog unit :=
  locked (
    st ← call StatMetadata;
    if IsNotExist st then mret tt
    else
      r ← call ReadMetadata;
      match r with
      | inr _ => mret tt
      | inl Garbage => mret tt
      | inl (Doc j) =>
          files ← call LoadFiles;
          call (StoreFiles (unmarshal_store j files))
      end).

(* ================================================================== *)
(** ** Handlers *)
(* ================================================================== *)

(** The name built when the upload path already exists (the body of the
    [if] on [os.Stat] in [uploadHandler]): the time stamp goes between
    what precedes the last dot of [originalName] and the rest. *)
Definition renamed (originalName : string) (stamp : Z) : string :=
  let dotIndex := gostrings.LastIndex originalName "." in
  let name :=
    if (dotIndex =? -1)%Z then originalName
    else gostrings.slice_to originalName dotIndex in
  let ext :=
    if (dotIndex =? -1)%Z then ""
    else gostrings.slice_from originalName dotIndex in
  name +:+ "_" +:+ fmt.d stamp +:+ ext.

(** [form] is the result of [c.FormFile("file")]: the file header, or the
    text of the error. The [Filename] of a header read from a request is
    what [multipart.FileName] returns. *)
Definition uploadHandler (form : multipart.FileHeader + string)
  : Prog fiber.Response :=
  match form with
  | inr msg =>
      mret (fiber.JSON fiber.StatusBadRequest (fiber.error_map msg))
  | inl file =>
      err ← call (MkdirAll uploadDir);
      match err with
      | Some _ =>
          mret (fiber.JSON fiber.StatusInternalServerError
                  (fiber.error_map "Could not create upload directory"))
      | None =>
          let originalName := multipart.Filename file in
          let cleanedFilename := filepath.Base originalName in
          if (cleanedFilename =? ".") || (cleanedFilename =? "/") then
            mret (fiber.JSON fiber.StatusBadRequest
                    (fiber.error_map "Invalid filename"))
          else
            let finalFilename := cleanedFilename in
            let filePath := filepath.Join uploadDir finalFilename in
            st ← call (Stat filePath);
            resolved ←
              match st with
              | None =>
                  stamp ← call TimeNow;
                  let finalFilename := renamed originalName stamp in
                  let filePath := uploadDir +:+ "/" +:+ finalFilename in
                  mret (finalFilename, filePath)
              | Some _ => mret (finalFilename, filePath)
              end;
            let finalFilename := fst resolved in
            let filePath := snd resolved in
            err ← call (SaveFile filePath (multipart.Content file));
            match err with
            | Some e =>
                mret (fiber.JSON fiber.StatusInternalServerError
                        (fiber.error_map (Error e)))
            | None =>
                let meta := {| Filename := finalFilename;
                               Size := multipart.Size file;
                               Path := filePath |} in
                files ← call LoadFiles;
                call (StoreFiles (files ++ [meta])) ;;
                err ← saveMetadata;
                match err with
                | Some _ =>
                    mret (fiber.JSON fiber.StatusInternalServerError
                            (fiber.error_map "Failed to save metadata"))
                | None =>
                    mret (fiber.JSON fiber.StatusOK
                            (JObj [("filename", JString (Filename meta));
                                   ("size", JNum (Size meta));
                                   ("status", JStr "uploaded")]))
                end
            end
      end
  end.

Definition filesHandler : Prog fiber.Response :=
  locked (
    files ← call LoadFiles;
    mret (fiber.JSON fiber.StatusOK (marshal_files files))).

(** The search loop of [downloadHandler]: the first record whose name is
    the requested one. *)
Fixpoint findFile (requestedFilename : string) (files : list FileMeta)
  : option FileMeta :=
  match files with
  | [] => None
  | f :: rest =>
      if Filename f =? requestedFilename then Some f
      else findFile requestedFilename rest
  end.

Definition downloadHandler (rawFilename : string) : Prog fiber.Response :=
  match url.QueryUnescape rawFilename with
  | None => mret (fiber.SendString fiber.StatusBadRequest "Invalid filename")
  | Some requestedFilename =>
      locked (
        files ← call LoadFiles;
        match findFile requestedFilename files with
        | None =>
            mret (fiber.SendString fiber.StatusNotFound
                    "File not found in metadata")
        | Some foundFile =>
            st ← call (Stat (Path foundFile));
            if IsNotExist st then
              mret (fiber.SendString fiber.StatusNotFound
                      "File not found on disk")
            else
              sent ← call (SendFile (Path foundFile));
              match sent with
              | Some content => mret (fiber.Download (Filename foundFile) content)
              | None => mret (fiber.SendFileFailed (Path foundFile))
              end
        end)
  end.

(** The search loop of [deleteHandler]: the index of the first record whose
    name is the requested one, counted from [i]; -1 when there is none. *)
Fixpoint findIndex (requestedFilename : string) (files : list FileMeta) (i : Z)
  : Z :=
  match files with
  | [] => (-1)%Z
  | f :: rest =>
      if Filename f =? requestedFilename then i
      else findIndex requestedFilename rest (i + 1)%Z
  end.

(** [append(files[:i], files[i+1:]...)] *)
Definition remove_at (files : list FileMeta) (i : Z) : list FileMeta :=
  take (Z.to_nat i) files ++ drop (Z.to_nat (i + 1)) files.

Definition deleteHandler (rawFilename : string) : Prog fiber.Response :=
  match url.QueryUnescape rawFilename with
  | None =>
      mret (fiber.JSON fiber.StatusBadRequest (fiber.error_map "Invalid filename"))
  | Some requestedFilename =>
      locked (
        files ← call LoadFiles;
        let fileIndex := findIndex requestedFilename files 0 in
        if (fileIndex =? -1)%Z then
          mret (fiber.JSON fiber.StatusNotFound
                  (fiber.error_map "File not found in metadata"))
        else
          let filePathToDelete := filepath.Join uploadDir requestedFilename in
          call (Remove filePathToDelete) ;;
          files ← call LoadFiles;
          call (StoreFiles (remove_at files fileIndex)) ;;
          err ← saveMetadataUnlocked;
          match err with
          | Some _ =>
              mret (fiber.JSON fiber.StatusInternalServerError
                      (fiber.error_map "Failed to update metadata"))
          | None =>
              files ← call LoadFiles;
              mret (fiber.JSON fiber.StatusOK (marshal_files files))
          end)
  end.

(** *** Running requests *)

(** A process that has just started: nothing in [webfiles], the mutex
    free. *)
Definition boot (d : gmap string (list Byte.byte)) (m : option FileData)
  : World :=
  {| webfiles := {| Files := []; mu := false |}; disk := d; metadata := m |}.

(** An environment without faults, with the clock at [t]. *)
Definition healthy (t : Z) : Env :=
  {| now := t; mkdir_err := None; save_err := None; remove_err := None;
     write_err := None; read_err := None |}.

Definition upload (name : string) (size : Z) (body : list Byte.byte)
  : Prog fiber.Response :=
  uploadHandler (inl {| multipart.Filename := name; multipart.Size := size;
                        multipart.Content := body |}).

(* ================================================================== *)
(** ** Notions used in the statements *)
(* ================================================================== *)

(** The filename check of [uploadHandler]: the base name of the raw name,
    unless it is "." or "/" (the request is then refused with
    "Invalid filename"). *)
Definition sanitize (originalName : string) : option string :=
  let cleanedFilename := filepath.Base originalName in
  if (cleanedFilename =? ".") || (cleanedFilename =? "/") then None
  else Some cleanedFilename.

Definition invalid_filename : fiber.Response :=
  fiber.JSON fiber.StatusBadRequest (fiber.error_map "Invalid filename").

(** The record [uploadHandler] stores for [file]: under the base name when
    no file has that path in the upload directory, under the stamped name
    otherwise. *)
Definition stored_meta (env : Env) (w : World) (file : multipart.FileHeader)
  : FileMeta :=
  let originalName := multipart.Filename file in
  let cleanedFilename := filepath.Base originalName in
  match lookup_path w (filepath.Join uploadDir cleanedFilename) with
  | Some _ =>
      {| Filename := renamed originalName (now env);
         Size := multipart.Size file;
         Path := uploadDir +:+ "/" +:+ renamed originalName (now env) |}
  | None =>
      {| Filename := cleanedFilename;
         Size := multipart.Size file;
         Path := filepath.Join uploadDir cleanedFilename |}
  end.

(** Every catalogued name has a file in the upload directory. *)
Definition backed_by_disk (w : World) : Prop :=
  ∀ m, m ∈ Files (webfiles w) →
       is_Some (lookup_path w (filepath.Join uploadDir (Filename m))).

(** A path element: a string without separator. *)
Definition element (e : string) : Prop := gostrings.contains e "/" = false.

(** An element [filepath.Clean] keeps as a name. *)
Definition name_element (e : string) : Prop :=
  element e /\ e <> "" /\ e <> "." /\ e <> "..".

(** The elements kept by [filepath.Clean], last one first: names, then the
    ".." that could not be resolved (none when the path is rooted). *)
Definition kept_shape (rooted : bool) (out : list string) : Prop :=
  exists names dots : list string,
    out = names ++ dots
    /\ Forall name_element names
    /\ Forall (fun e => e = "..") dots
    /\ (rooted = true -> dots = []).

(** What is left of a record that has gone through the metadata file: its
    name as the encoder writes it, its size, and no path. *)
Definition read_back (m : FileMeta) : FileMeta :=
  {| Filename := json.text (Filename m); Size := Size m; Path := "" |}.

(** What [mime/multipart] can hand to [uploadHandler] as the name of an
    uploaded file: the result of [Part.FileName] on some filename
    parameter. *)
Definition received (name : string) : Prop :=
  exists filename, name = multipart.FileName filename.

(** The process is stopped and started again: [webfiles] is empty, the
    disk and the metadata file are as they were left. *)
Definition restart (w : World) : World := boot (disk w) (metadata w).

(** Actions on what the mutex protects: [webfiles.Files], the uploaded
    files and the metadata file. *)
Definition guarded (o : Op) : bool :=
  match o with
  | MuLock | MuUnlock | TimeNow | MkdirAll _ => false
  | _ => true
  end.

(** A log in which every guarded action is performed with the mutex held. *)
Definition critical_section (log : list (Op * bool)) : bool :=
  forallb (fun e : Op * bool => implb (guarded (fst e)) (snd e)) log.

(** The goroutines that have returned, with their responses. *)
Definition returned {A : Type} (ts : list (Env * Prog A)) : list (option A) :=
  map (fun t : Env * Prog A =>
         match snd t with Ret a => Some a | Act _ _ => None end) ts.

(** *** Worlds and requests of the examples *)

Definition some_bytes (n : nat) : list Byte.byte := repeat Byte.x61 n.

(** A fresh process after the upload of a 12-byte "a.txt". *)
Definition world_a : World :=
  snd (exec (healthy 1) (upload "a.txt" 12 (some_bytes 12)) (boot ∅ None)).

(** A fresh process after the uploads of "a_5.txt" and of "a.txt". *)
Definition world_pair : World :=
  let w1 := snd (exec (healthy 1) (upload "a_5.txt" 3 (some_bytes 3)) (boot ∅ None)) in
  snd (exec (healthy 2) (upload "a.txt" 12 (some_bytes 12)) w1).

(** The same process after one more upload of "a.txt", when the clock
    reads 5. *)
Definition world_twice : World :=
  snd (exec (healthy 5) (upload "a.txt" 5 (some_bytes 5)) world_pair).

(** The process of [world_a] started again after the upload directory has
    been emptied: the index still lists "a.txt". *)
Definition world_orphan : World :=
  snd (exec (healthy 2) loadMetadata (boot ∅ (metadata world_a))).

(** The process of [world_pair] after the upload directory has been
    emptied behind its back. *)
Definition world_lost : World := set_disk ∅ world_pair.

(** An environment in which writing the metadata file fails. *)
Definition index_unwritable (t : Z) : Env :=
  {| now := t; mkdir_err := None; save_err := None; remove_err := None;
     write_err := Some {| notexist := false; Error := "disk full" |};
     read_err := None |}.

(** An environment in which saving the uploaded file fails. *)
Definition upload_unwritable (t : Z) : Env :=
  {| now := t; mkdir_err := None;
     save_err := Some {| notexist := false; Error := "disk full" |};
     remove_err := None; write_err := None; read_err := None |}.

(** An environment in which removing a file fails. *)
Definition remove_denied (t : Z) : Env :=
  {| now := t; mkdir_err := None; save_err := None;
     remove_err := Some {| notexist := false; Error := "permission denied" |};
     write_err := None; read_err := None |}.

(** The process of [world_a] after a delete of "a.txt" during which the
    file could not be removed: the catalog is empty, the file is still in
    the upload directory. *)
Definition world_leftover : World :=
  snd (exec (remove_denied 2) (deleteHandler "a.txt") world_a).

(* ================================================================== *)
(** ** The client script *)
(* ================================================================== *)

(** The functions of the page's script that decide what the server is
    asked and what the page shows: how a listed name becomes the address
    of its download link, and which icon it is shown with. JavaScript
    strings are modelled by the UTF-8 bytes of their text, the form in
    which the names travel; the names of a listing are well-formed text,
    having been written by the JSON encoder. *)
Module js.

(** The characters [encodeURIComponent] leaves as they are: letters,
    digits and - _ . ! ~ * ' ( ). *)
Definition unreserved (c : ascii) : bool :=
  let n := nat_of_ascii c in
  (((48 <=? n) && (n <=? 57)) || ((65 <=? n) && (n <=? 90))
   || ((97 <=? n) && (n <=? 122)))%nat
  || gostrings.contains "-_.!~*'()" c.

Definition hexdigit (n : nat) : ascii :=
  nth n (list_ascii_of_string "0123456789ABCDEF") "0"%char.

(** [encodeURIComponent]: every byte other than an unreserved character
    becomes "%XY", its value in upper-case hexadecimal. *)
Fixpoint encodeURIComponent (s : string) : string :=
  match s with
  | EmptyString => ""
  | String c rest =>
      if unreserved c then String c (encodeURIComponent rest)
      else
        let n := nat_of_ascii c in
        String "%" (String (hexdigit (n / 16)) (String (hexdigit (n mod 16))
          (encodeURIComponent rest)))
  end.

(** [s.split(sep)] for a separator of one character. *)
Fixpoint split (sep : ascii) (s : string) : list string :=
  match s with
  | EmptyString => [""]
  | String c rest =>
      if Ascii.eqb c sep then "" :: split sep rest
      else match split sep rest with
           | e :: es => String c e :: es
           | [] => [String c ""]
           end
  end.

(** [a.pop()] as used on the result of [split]: the last element. *)
Definition pop (a : list string) : string := List.last a "".

(** The icons of [getFileIcon], by the Bootstrap class of the markup it
    returns. *)
Inductive Icon : Type :=
| file_earmark_pdf_fill
| file_earmark_word_fill
| file_earmark_excel_fill
| file_earmark_ppt_fill
| file_earmark_text_fill
| file_earmark_image_fill
| file_earmark_play_fill
| file_earmark_music_fill
| file_earmark_zip_fill
| file_earmark_fill.

(** [getFileIcon]. [toLowerCase] is the string method of that name. *)
Definition getFileIcon (toLowerCase : string -> string) (filename : string)
  : Icon :=
  let ext := toLowerCase (pop (split "." filename)) in
  if ext =? "pdf" then file_earmark_pdf_fill
  else if (ext =? "doc") || (ext =? "docx") then file_earmark_word_fill
  else if (ext =? "xls") || (ext =? "xlsx") then file_earmark_excel_fill
  else if (ext =? "ppt") || (ext =? "pptx") then file_earmark_ppt_fill
  else if ext =? "txt" then file_earmark_text_fill
  else if (ext =? "jpg") || (ext =? "jpeg") || (ext =? "png") || (ext =? "gif")
       then file_earmark_image_fill
  else if (ext =? "mp4") || (ext =? "mov") || (ext =? "mkv") || (ext =? "webm")
       then file_earmark_play_fill
  else if (ext =? "mp3") || (ext =? "wav") || (ext =? "ogg")
       then file_earmark_music_fill
  else if (ext =? "zip") || (ext =? "rar") || (ext =? "7z")
       then file_earmark_zip_fill
  else file_earmark_fill.

(** The route parameter of the download link [loadFiles] writes for a
    listed name: what follows "/download/" in the address of the link. *)
Definition download_param (filename : string) : string :=
  encodeURIComponent filename.

End js.

(* ================================================================== *)
(** ** Start-up, session gate and login *)
(* ================================================================== *)

(** [loadEnv]: the PIN and the signing key read from the environment
    ([getenv] is [os.Getenv] after [godotenv.Load]); [None] when the process
    stops with [log.Fatal]. *)
Definition loadEnv (getenv : string -> string) : option (string * string) :=
  let correctPIN := getenv "LOGIN_PIN" in
  if correctPIN =? "" then None
  else
    let jwtSecretStr := getenv "JWT_SECRET_KEY" in
    if jwtSecretStr =? "" then None
    else Some (correctPIN, jwtSecretStr).

(** What the middleware of [main] does with a request. *)
Inductive Gate : Type :=
| Next                                     (* c.Next() *)
| Redirect (location : string) (clearCookie : bool).
    (* c.Redirect(location), after c.ClearCookie("session") or not *)

(** [strings.HasPrefix] *)
Definition HasPrefix (s prefix : string) : bool := String.prefix prefix s.

(** The middleware installed by [app.Use]. [path] is [c.Path()], [session]
    is [c.Cookies("session")]; [valid] tells whether [jwt.Parse] with the
    key function of [main] returns no error and a valid token. *)
Definition authMiddleware (valid : string -> bool) (path session : string)
  : Gate :=
  if (path =? "/login") || (path =? "/logout") || HasPrefix path "/public"
  then Next
  else
    let tokenString := session in
    if tokenString =? "" then Redirect "/login" false
    else if valid tokenString then Next
    else Redirect "/login" true.

(** [fiber.Cookie] *)
Record Cookie : Type := {
  Name : string;
  Value : string;
  Expires : Z;
  HTTPOnly : bool;
  Secure : bool;
  SameSite : string
}.

(** The answer of the login route: a JSON body under a status, and the
    cookie it sets, if any. *)
Record LoginResponse : Type := {
  login_status : Z;
  login_body : Json;
  login_cookie : option Cookie
}.

Definition StatusUnauthorized : Z := 401.

(** [fiber.CookieSameSiteStrictMode] *)
Definition CookieSameSiteStrictMode : string := "strict".

(** The handler of [POST /login], behind the rate limiter. [body] is the
    PIN of the request as [c.BodyParser] reads it ([None] when it fails, the
    empty string when the field is missing); [now] and [now'] are the two
    readings of the clock, in seconds; [SignedString exp pin] is the token
    signed for these claims, or [None] when signing fails. *)
Definition loginHandler (correctPIN : string)
  (SignedString : Z -> string -> option string) (now now' : Z)
  (body : option string) : LoginResponse :=
  match body with
  | None =>
      {| login_status := fiber.StatusBadRequest;
         login_body := fiber.error_map "Invalid request";
         login_cookie := None |}
  | Some pin =>
      if negb (pin =? correctPIN) then
        {| login_status := StatusUnauthorized;
           login_body := fiber.error_map "Incorrect PIN";
           login_cookie := None |}
      else
        match SignedString (now + 24 * 3600)%Z pin with
        | None =>
            {| login_status := fiber.StatusInternalServerError;
               login_body := fiber.error_map "Failed to generate token";
               login_cookie := None |}
        | Some tokenString =>
            {| login_status := fiber.StatusOK;
               login_body := JObj [("status", JStr "ok")];
               login_cookie :=
                 Some {| Name := "session"; Value := tokenString;
                         Expires := (now' + 24 * 3600)%Z; HTTPOnly := true;
                         Secure := true;
                         SameSite := CookieSameSiteStrictMode |} |}
        end
  end.

(** The routes of the file handlers, as registered in [main]. *)
Definition file_route (path : string) : Prop :=
  path = "/upload" \/ path = "/files"
  \/ (exists filename, path = "/download/" +:+ filename)
  \/ (exists filename, path = "/delete/" +:+ filename).

(* ================================================================== *)
(** ** Properties of the library functions *)
(* ================================================================== *)

(** The tables of the Go test suites of [path/filepath] and [net/url]. *)
Example Clean_table :
  map filepath.Clean
    ["abc"; "abc/def"; "a/b/c"; "."; ".."; "../.."; "../../abc"; "/abc"; "/";
     ""; "abc/"; "abc/def/"; "a/b/c/"; "./"; "../"; "../../"; "/abc/";
     "abc//def//ghi"; "//abc"; "///abc"; "//abc//"; "abc//";
     "abc/./def"; "/./abc/def"; "abc/.";
     "abc/def/ghi/../jkl"; "abc/def/../ghi/../jkl"; "abc/def/.."; "abc/def/../..";
     "/abc/def/../.."; "abc/def/../../.."; "/abc/def/../../..";
     "abc/def/../../../ghi/jkl/../../../mno"; "/../abc";
     "abc/./../def"; "abc//./../def"; "abc/../../././../def"]
  = ["abc"; "abc/def"; "a/b/c"; "."; ".."; "../.."; "../../abc"; "/abc"; "/";
     "."; "abc"; "abc/def"; "a/b/c"; "."; ".."; "../.."; "/abc";
     "abc/def/ghi"; "/abc"; "/abc"; "/abc"; "abc";
     "abc/def"; "/abc/def"; "abc";
     "abc/def/jkl"; "abc/jkl"; "abc"; ".";
     "/"; ".."; "/";
     "../../mno"; "/abc";
     "def"; "def"; "../../def"].
Proof. reflexivity. Qed.

Example Base_table :
  map filepath.Base
    [""; "."; "/."; "/"; "////"; "x/"; "abc"; "abc/def"; "a/b/.x"; "a/b/c.";
     "a/b/c.x"; ".."; "../a.txt"]
  = ["."; "."; "."; "/"; "/"; "x"; "abc"; "def"; ".x"; "c."; "c.x"; "..";
     "a.txt"].
Proof. reflexivity. Qed.

Example Join_table :
  map (filepath.Join "./uploads")
    [""; "a.txt"; "/a"; "a/"; ".."; "../.."; "a/../b"; "../a_7.txt"]
  = ["uploads"; "uploads/a.txt"; "uploads/a"; "uploads/a"; "."; "..";
     "uploads/b"; "a_7.txt"].
Proof. reflexivity. Qed.

Example QueryUnescape_table :
  map url.QueryUnescape
    [""; "abc"; "1%41"; "1%41%42%43"; "%4a"; "%6F"; "%"; "%a"; "%1";
     "123%45%6"; "%zzzzz"; "a+b"; "a%20b"; "..%2Fx"]
  = [Some ""; Some "abc"; Some "1A"; Some "1ABC"; Some "J"; Some "o"; None;
     None; None; None; None; Some "a b"; Some "a b"; Some "../x"].
Proof. reflexivity. Qed.

Example LastIndex_examples :
  gostrings.LastIndex "a.tar.gz" "." = 5%Z /\
  gostrings.LastIndex "README" "." = (-1)%Z /\
  gostrings.slice_to "a.tar.gz" 5 = "a.tar" /\
  gostrings.slice_from "a.tar.gz" 5 = ".gz".
Proof. repeat split; reflexivity. Qed.

Example renamed_examples :
  renamed "report.pdf" 1700000000000000000 = "report_1700000000000000000.pdf"
  /\ renamed "README" 42 = "README_42"
  /\ renamed ".." 42 = "._42."
  /\ renamed "../a.txt" 7 = "../a_7.txt".
Proof. repeat split; reflexivity. Qed.

(* ================================================================== *)
(** ** Properties of the handlers' helpers *)
(* ================================================================== *)

Section StringFacts.

Lemma contains_of_list (l : list ascii) (c : ascii) :
  gostrings.contains (string_of_list_ascii l) c
  = existsb (fun a => Ascii.eqb a c) l.
Proof. induction l as [|a l IH]; simpl; [reflexivity | now rewrite IH]. Qed.

Lemma upto_sep_clean (l : list ascii) :
  existsb (fun a => Ascii.eqb a "/") (filepath.upto_sep l) = false.
Proof.
  induction l as [|a l IH]; simpl; [reflexivity|].
  unfold filepath.IsPathSeparator.
  destruct (Ascii.eqb a "/") eqn:E; simpl; [reflexivity|].
  now rewrite E.
Qed.

Lemma existsb_rev_false {A} (f : A -> bool) (l : list A) :
  existsb f l = false -> existsb f (rev l) = false.
Proof.
  intros H. apply not_true_is_false. intros Ht.
  apply existsb_exists in Ht as (x & Hin & Hf).
  apply in_rev in Hin.
  assert (existsb f l = true) by (apply existsb_exists; eauto).
  congruence.
Qed.

Lemma string_of_list_nonempty (a : ascii) (l : list ascii) :
  string_of_list_ascii (rev (a :: l)) <> "".
Proof.
  simpl. destruct (rev l); simpl; discriminate.
Qed.

Lemma Clean_nonempty (path : string) : (filepath.Clean path =? "") = false.
Proof.
  unfold filepath.Clean.
  match goal with |- ((if ?c then _ else _) =? _) = _ => destruct c eqn:E end;
    [reflexivity | exact E].
Qed.

Lemma Join_uploadDir_nonempty (name : string) :
  (filepath.Join uploadDir name =? "") = false.
Proof. apply Clean_nonempty. Qed.

End StringFacts.

(** What the filename check lets through is a plain name: not empty,
    neither "." nor "/", and without a separator. *)
Lemma sanitize_plain (originalName cleaned : string) :
  sanitize originalName = Some cleaned ->
  cleaned <> "" /\ cleaned <> "." /\ cleaned <> "/"
  /\ gostrings.contains cleaned "/" = false.
Proof.
  unfold sanitize. intros H.
  destruct (_ || _) eqn:E; [discriminate|]. injection H as <-.
  apply orb_false_elim in E as [Edot Eroot].
  apply String.eqb_neq in Edot, Eroot.
  repeat split; try assumption.
  - unfold filepath.Base in *.
    destruct (originalName =? ""); [discriminate|].
    destruct (filepath.upto_sep _) as [|a l]; [discriminate|].
    apply string_of_list_nonempty.
  - unfold filepath.Base in *.
    destruct (originalName =? ""); [reflexivity|].
    destruct (filepath.upto_sep _) as [|a l] eqn:El; [now elim Eroot|].
    rewrite contains_of_list. apply existsb_rev_false.
    rewrite <- El. apply upto_sep_clean.
Qed.

Section Search.

Implicit Types (files : list FileMeta) (name : string).

Lemma findFile_None name files :
  findFile name files = None <-> name ∉ filenames files.
Proof.
  induction files as [|f rest IH]; simpl.
  - split; [intros _; apply not_elem_of_nil | reflexivity].
  - destruct (String.eqb_spec (Filename f) name) as [E|E].
    + split; [discriminate|]. intros H. exfalso. apply H. rewrite E. left.
    + rewrite IH, not_elem_of_cons. split; [intros H; split; auto | tauto].
Qed.

Lemma findFile_Some name files f :
  findFile name files = Some f ->
  exists before after : list FileMeta,
    files = (before ++ f :: after) /\ Filename f = name
    /\ (name ∉ filenames before).
Proof.
  induction files as [|g rest IH]; simpl; [discriminate|].
  destruct (String.eqb_spec (Filename g) name) as [E|E].
  - intros [= <-]. exists [], rest. repeat split; auto. apply not_elem_of_nil.
  - intros H. destruct (IH H) as (b & a & -> & Hf & Hb).
    exists (g :: b), a. repeat split; auto.
    simpl. apply not_elem_of_cons. auto.
Qed.

Lemma findFile_first name (before : list FileMeta) f (after : list FileMeta) :
  name ∉ filenames before -> Filename f = name ->
  findFile name (before ++ f :: after) = Some f.
Proof.
  intros Hb Hf. induction before as [|g before IH]; simpl.
  - now rewrite Hf, String.eqb_refl.
  - simpl in Hb. apply not_elem_of_cons in Hb as [Hg Hb].
    destruct (String.eqb_spec (Filename g) name); [congruence|]. now apply IH.
Qed.

Lemma findIndex_absent name files i :
  name ∉ filenames files -> findIndex name files i = (-1)%Z.
Proof.
  revert i. induction files as [|f rest IH]; intros i H; simpl; [reflexivity|].
  simpl in H. apply not_elem_of_cons in H as [Hf Hr].
  destruct (String.eqb_spec (Filename f) name); [congruence|]. now apply IH.
Qed.

Lemma findIndex_present name files i :
  name ∈ filenames files ->
  exists (before : list FileMeta) f (after : list FileMeta),
    files = (before ++ f :: after) /\ Filename f = name
    /\ (name ∉ filenames before)
    /\ findIndex name files i = (i + Z.of_nat (List.length before))%Z.
Proof.
  revert i. induction files as [|g rest IH]; intros i H; simpl in *.
  - now apply elem_of_nil in H.
  - destruct (String.eqb_spec (Filename g) name) as [E|E].
    + exists [], g, rest. simpl. repeat split; auto.
      * apply not_elem_of_nil.
      * lia.
    + apply elem_of_cons in H as [H|H]; [congruence|].
      destruct (IH (i + 1)%Z H) as (b & f & a & -> & Hf & Hb & Hi).
      exists (g :: b), f, a. simpl. repeat split; auto.
      * apply not_elem_of_cons. auto.
      * rewrite Hi. lia.
Qed.

Lemma remove_at_middle (before after : list FileMeta) f :
  remove_at (before ++ f :: after) (Z.of_nat (List.length before))
  = (before ++ after).
Proof.
  unfold remove_at.
  replace (Z.to_nat (Z.of_nat (List.length before) + 1)) with (S (List.length before)) by lia.
  rewrite Nat2Z.id.
  rewrite take_app_length.
  replace (before ++ f :: after) with ((before ++ [f]) ++ after)
    by now rewrite <- app_assoc.
  rewrite drop_app_length'; [reflexivity|].
  rewrite length_app. simpl. lia.
Qed.

End Search.

Section Utf8.

(** The table of [TestMarshalInvalidUTF8] of [encoding/json], and the
    strings with ill-formed text of the table of its decoder tests. *)
Example coerce_table :
  let bytes := fun l : list nat => string_of_list_ascii (map ascii_of_nat l) in
  map json.text
    [bytes [104; 101; 108; 108; 111; 255; 119; 111; 114; 108; 100];
     "";
     bytes [255];
     bytes [255; 255];
     bytes [97; 255; 98];
     bytes [230; 151; 165; 230; 156; 172; 255; 170; 158];
     bytes [194; 194; 119];
     bytes [194; 255; 119];
     bytes [237; 160; 128; 237; 176; 128];
     bytes [195; 169];
     bytes [240; 159; 152; 128]]
  = [bytes [104; 101; 108; 108; 111; 239; 191; 189; 119; 111; 114; 108; 100];
     "";
     bytes [239; 191; 189];
     bytes [239; 191; 189; 239; 191; 189];
     bytes [97; 239; 191; 189; 98];
     bytes [230; 151; 165; 230; 156; 172;
            239; 191; 189; 239; 191; 189; 239; 191; 189];
     bytes [239; 191; 189; 239; 191; 189; 119];
     bytes [239; 191; 189; 239; 191; 189; 119];
     bytes [239; 191; 189; 239; 191; 189; 239; 191; 189;
            239; 191; 189; 239; 191; 189; 239; 191; 189];
     bytes [195; 169];
     bytes [240; 159; 152; 128]].
Proof. vm_compute. reflexivity. Qed.

(** The bytes of a well-formed encoding are copied as they are: the
    encoding is still there after the coercion of what follows its first
    byte. *)
Lemma size_coerce (c : ascii) (rest : string) (k : nat) :
  utf8.size c rest = S k -> utf8.size c (json.coerce k rest) = S k.
Proof.
  intros H. unfold utf8.size in H. cbv zeta in H.
  destruct (nat_of_ascii c <? utf8.RuneSelf)%nat eqn:E0.
  { injection H as <-. unfold utf8.size. now rewrite E0. }
  destruct (utf8.first (nat_of_ascii c)) as [[sz [lo hi]]|] eqn:Ef;
    [|discriminate].
  destruct rest as [|c1 rest1]; [discriminate|].
  destruct ((nat_of_ascii c1 <? lo) || (hi <? nat_of_ascii c1))%nat eqn:E1;
    [discriminate|].
  destruct (sz <=? 2)%nat eqn:Es2.
  { injection H as <-. cbn [json.coerce]. unfold utf8.size. cbv zeta.
    now rewrite E0, Ef, E1, Es2. }
  destruct rest1 as [|c2 rest2]; [discriminate|].
  destruct ((nat_of_ascii c2 <? utf8.locb) || (utf8.hicb <? nat_of_ascii c2))%nat
    eqn:E2; [discriminate|].
  destruct (sz <=? 3)%nat eqn:Es3.
  { injection H as <-. cbn [json.coerce]. unfold utf8.size. cbv zeta.
    now rewrite E0, Ef, E1, Es2, E2, Es3. }
  destruct rest2 as [|c3 rest3]; [discriminate|].
  destruct ((nat_of_ascii c3 <? utf8.locb) || (utf8.hicb <? nat_of_ascii c3))%nat
    eqn:E3; [discriminate|].
  injection H as <-. cbn [json.coerce]. unfold utf8.size. cbv zeta.
  now rewrite E0, Ef, E1, Es2, E2, Es3, E3.
Qed.

Lemma coerce_idempotent (k : nat) (s : string) :
  json.coerce k (json.coerce k s) = json.coerce k s.
Proof.
  revert k. induction s as [|c rest IH]; intros k; [reflexivity|].
  destruct k as [|k].
  - cbn [json.coerce]. destruct (utf8.size c rest) as [|k] eqn:Hs.
    + change (json.replacement +:+ json.coerce 0 rest)
        with (String "239" (String "191" (String "189" (json.coerce 0 rest)))).
      change (json.coerce 0
                (String "239" (String "191" (String "189" (json.coerce 0 rest)))))
        with (String "239" (String "191" (String "189"
                (json.coerce 0 (json.coerce 0 rest))))).
      now rewrite IH.
    + cbn [json.coerce]. rewrite (size_coerce _ _ _ Hs). now rewrite IH.
  - cbn [json.coerce]. now rewrite IH.
Qed.

(** What the encoder has written once, it writes again unchanged. *)
Lemma text_idempotent (s : string) : json.text (json.text s) = json.text s.
Proof. apply coerce_idempotent. Qed.

Lemma coerce_valid (k : nat) (s : string) :
  utf8.valid_from k s = true -> json.coerce k s = s.
Proof.
  revert k. induction s as [|c rest IH]; intros k; [reflexivity|].
  destruct k as [|k]; cbn [utf8.valid_from json.coerce].
  - destruct (utf8.size c rest); [discriminate|]. intros H. now rewrite IH.
  - intros H. now rewrite IH.
Qed.

(** Well-formed text goes through the encoder as it is. *)
Lemma text_valid (s : string) : utf8.ValidString s = true -> json.text s = s.
Proof. apply coerce_valid. Qed.

Lemma valid_ascii (s : string) :
  utf8.ascii_only s = true -> utf8.ValidString s = true.
Proof.
  unfold utf8.ascii_only, utf8.ValidString.
  induction s as [|c rest IH]; [reflexivity|].
  cbn [list_ascii_of_string forallb utf8.valid_from]. intros H.
  apply andb_true_iff in H as [Hc Hr].
  unfold utf8.size. rewrite Hc. auto.
Qed.

Lemma ascii_only_append (a b : string) :
  utf8.ascii_only (a +:+ b) = utf8.ascii_only a && utf8.ascii_only b.
Proof.
  unfold utf8.ascii_only.
  induction a as [|x a IH]; [reflexivity|].
  change (list_ascii_of_string (String x a +:+ b))
    with (x :: list_ascii_of_string (a +:+ b)).
  cbn [list_ascii_of_string forallb]. now rewrite IH, andb_assoc.
Qed.

Lemma digits_ascii (u : Decimal.uint) :
  utf8.ascii_only (NilEmpty.string_of_uint u) = true.
Proof. induction u; simpl; assumption || reflexivity. Qed.

(** The decimal form of a number is ASCII. *)
Lemma d_ascii (n : Z) : utf8.ascii_only (fmt.d n) = true.
Proof.
  unfold fmt.d, NilZero.string_of_int, NilZero.string_of_uint.
  destruct (Z.to_int n) as [u|u]; destruct u; simpl;
    try reflexivity; apply digits_ascii.
Qed.

End Utf8.

Section JsonRoundTrip.

(** Decoding what [marshal_meta] wrote sets the name and the size, and
    leaves the path of the target as it was. *)
Lemma decode_marshal_meta (m old : FileMeta) :
  int64_range (Size m) = true ->
  decode_meta (marshal_meta m) old
  = {| Filename := json.text (Filename m); Size := Size m; Path := Path old |}.
Proof.
  intros Hr. cbn -[json.text]. now rewrite Hr.
Qed.

Lemma decode_marshal_slice (files : list FileMeta) :
  Forall (fun m => int64_range (Size m) = true) files ->
  decode_slice (map marshal_meta files) [] = map read_back files.
Proof.
  induction 1 as [|m files Hm _ IH]; [reflexivity|].
  cbn [map decode_slice hd tl]. rewrite IH.
  now rewrite decode_marshal_meta.
Qed.

(** In a process that has just started, reading back what
    [marshal_store] wrote gives the records as the encoder wrote them,
    without their path. *)
Lemma unmarshal_marshal_store (files : list FileMeta) :
  Forall (fun m => int64_range (Size m) = true) files ->
  unmarshal_store (marshal_store files) [] = map read_back files.
Proof.
  intros H. cbn -[decode_slice marshal_meta]. now apply decode_marshal_slice.
Qed.

(** The records read back are written as the records themselves were. *)
Lemma marshal_read_back (files : list FileMeta) :
  marshal_files (map read_back files) = marshal_files files.
Proof.
  unfold marshal_files. rewrite map_map. f_equal.
  apply map_ext. intros m. unfold marshal_meta, read_back, JString. cbn [Filename Size].
  now rewrite text_idempotent.
Qed.

End JsonRoundTrip.

Section StampedName.

Lemma contains_append (a b : string) (c : ascii) :
  gostrings.contains (a +:+ b) c
  = gostrings.contains a c || gostrings.contains b c.
Proof.
  induction a as [|x a IH]; simpl; [reflexivity|].
  now rewrite IH, orb_assoc.
Qed.

Lemma contains_substring (s : string) (n m : nat) (c : ascii) :
  gostrings.contains s c = false ->
  gostrings.contains (substring n m s) c = false.
Proof.
  revert n m. induction s as [|x s IH]; intros n m H.
  - destruct n, m; reflexivity.
  - simpl in H. apply orb_false_elim in H as [Hx Hs].
    destruct n as [|n].
    + destruct m as [|m]; simpl; [reflexivity|]. now rewrite Hx, IH.
    + simpl. now apply IH.
Qed.

Lemma digits_no_separator (u : Decimal.uint) :
  gostrings.contains (NilEmpty.string_of_uint u) "/" = false.
Proof. induction u; simpl; assumption || reflexivity. Qed.

(** The decimal form of a number has no separator in it. *)
Lemma d_no_separator (n : Z) : gostrings.contains (fmt.d n) "/" = false.
Proof.
  unfold fmt.d, NilZero.string_of_int, NilZero.string_of_uint.
  destruct (Z.to_int n) as [u|u]; destruct u; simpl;
    try reflexivity; apply digits_no_separator.
Qed.

(** The stamped name is never empty, "." or "/": it has an underscore. *)
Lemma renamed_has_underscore (originalName : string) (stamp : Z) :
  gostrings.contains (renamed originalName stamp) "_" = true.
Proof.
  unfold renamed. rewrite !contains_append. simpl.
  now rewrite orb_true_r.
Qed.

Lemma renamed_not_trivial (originalName : string) (stamp : Z) :
  renamed originalName stamp <> ""
  /\ renamed originalName stamp <> "."
  /\ renamed originalName stamp <> "/".
Proof.
  pose proof (renamed_has_underscore originalName stamp) as H.
  repeat split; intros E; rewrite E in H; discriminate.
Qed.

(** It has a separator only if the raw name has one. *)
Lemma renamed_plain (originalName : string) (stamp : Z) :
  gostrings.contains originalName "/" = false ->
  gostrings.contains (renamed originalName stamp) "/" = false.
Proof.
  intros H. unfold renamed, gostrings.slice_to, gostrings.slice_from.
  rewrite !contains_append, d_no_separator. simpl.
  destruct (_ =? _)%Z.
  - now rewrite H.
  - now rewrite !contains_substring.
Qed.

End StampedName.

(** [filepath.Clean] applied to a cleaned path changes nothing: the path a
    record is stored at and the path a later collision test looks at name
    the same file. *)
Section CleanIdempotent.

Import filepath.

Lemma split_elements (path : string) : Forall element (split path).
Proof.
  induction path as [|c rest IH]; simpl.
  - repeat constructor.
  - unfold IsPathSeparator. destruct (Ascii.eqb c "/") eqn:E.
    + constructor; [reflexivity | assumption].
    + destruct (split rest) as [|e es]; inversion IH; subst;
        constructor; auto; unfold element in *; simpl; now rewrite E.
Qed.

Lemma split_element (e : string) : element e -> split e = [e].
Proof.
  induction e as [|c e IH]; intros H; [reflexivity|].
  unfold element in H. simpl in H. apply orb_false_elim in H as [Hc He].
  simpl. unfold IsPathSeparator. rewrite Hc. now rewrite (IH He).
Qed.

Lemma split_app_sep (e rest : string) :
  element e -> split (e +:+ "/" +:+ rest) = e :: split rest.
Proof.
  induction e as [|c e IH]; intros H; [reflexivity|].
  unfold element in H. simpl in H. apply orb_false_elim in H as [Hc He].
  simpl. unfold IsPathSeparator. rewrite Hc.
  change (split (e +:+ String "/" rest)) with (split (e +:+ "/" +:+ rest)).
  now rewrite (IH He).
Qed.

Lemma split_concat (e : string) (es : list string) :
  Forall element (e :: es) ->
  split (String.concat "/" (e :: es)) = e :: es.
Proof.
  revert e. induction es as [|e' es IH]; intros e H; inversion H; subst.
  - now apply split_element.
  - change (String.concat "/" (e :: e' :: es))
      with (e +:+ "/" +:+ String.concat "/" (e' :: es)).
    rewrite split_app_sep by assumption. now rewrite IH.
Qed.


Lemma clean_step_shape (rooted : bool) (out : list string) (e : string) :
  element e -> kept_shape rooted out -> kept_shape rooted (clean_step rooted out e).
Proof.
  intros He (names & dots & -> & Hn & Hd & Hr). unfold clean_step.
  destruct (String.eqb_spec e "") as [->|Hne]; simpl; [now exists names, dots|].
  destruct (String.eqb_spec e ".") as [->|Hnd]; simpl; [now exists names, dots|].
  destruct (String.eqb_spec e "..") as [->|Hndd].
  - destruct names as [|n names]; simpl.
    + destruct dots as [|d dots].
      * destruct rooted.
        -- exists [], []. split; [reflexivity|]. split; [constructor|].
           split; [constructor | reflexivity].
        -- exists [], [".."]. split; [reflexivity|]. split; [constructor|].
           split; [repeat constructor | discriminate].
      * inversion Hd; subst. simpl.
        exists [], (".." :: ".." :: dots). split; [reflexivity|].
        split; [constructor|]. split; [repeat constructor; assumption |].
        intros Ht. discriminate (Hr Ht).
    + inversion Hn as [|? ? (_ & _ & _ & Hn1) Hn2]; subst.
      destruct (String.eqb_spec n ".."); [contradiction|].
      now exists names, dots.
  - exists (e :: names), dots. split; [reflexivity|].
    split; [|split; assumption].
    constructor; [|assumption]. unfold name_element. auto.
Qed.

Lemma fold_shape (rooted : bool) (es out : list string) :
  Forall element es -> kept_shape rooted out ->
  kept_shape rooted (fold_left (clean_step rooted) es out).
Proof.
  revert out. induction es as [|e es IH]; intros out He Hout; [assumption|].
  inversion He; subst. simpl. apply IH; [assumption|].
  now apply clean_step_shape.
Qed.

Lemma replay_dots (dots acc : list string) :
  Forall (fun e => e = "..") dots -> Forall (fun e => e = "..") acc ->
  fold_left (clean_step false) dots acc = rev dots ++ acc.
Proof.
  revert acc. induction dots as [|d dots IH]; intros acc Hd Ha; [reflexivity|].
  inversion Hd; subst. simpl.
  assert (Hs : clean_step false acc ".." = ".." :: acc).
  { destruct acc as [|a acc]; [reflexivity|]. now inversion Ha; subst. }
  rewrite Hs, IH by (auto; constructor; auto). now rewrite <- app_assoc.
Qed.

Lemma replay_names (rooted : bool) (names acc : list string) :
  Forall name_element names ->
  fold_left (clean_step rooted) names acc = rev names ++ acc.
Proof.
  revert acc. induction names as [|n names IH]; intros acc Hn; [reflexivity|].
  inversion Hn as [|? ? (_ & H1 & H2 & H3) Hn']; subst. simpl.
  assert (Hs : clean_step rooted acc n = n :: acc).
  { unfold clean_step.
    destruct (String.eqb_spec n ""); [contradiction|].
    destruct (String.eqb_spec n "."); [contradiction|].
    destruct (String.eqb_spec n ".."); [contradiction|]. reflexivity. }
  rewrite Hs, IH by assumption. now rewrite <- app_assoc.
Qed.

(** Cleaning the kept elements again keeps them all. *)
Lemma replay_kept (rooted : bool) (out : list string) :
  kept_shape rooted out ->
  fold_left (clean_step rooted) (rev out) [] = out.
Proof.
  intros (names & dots & -> & Hn & Hd & Hr).
  rewrite rev_app_distr, fold_left_app.
  assert (Hdots : fold_left (clean_step rooted) (rev dots) [] = dots).
  { destruct rooted.
    - now rewrite (Hr eq_refl).
    - rewrite replay_dots; [now rewrite rev_involutive, app_nil_r | | constructor].
      now apply List.Forall_rev. }
  rewrite Hdots, replay_names; [now rewrite rev_involutive|].
  now apply List.Forall_rev.
Qed.

Lemma kept_elements (rooted : bool) (out : list string) :
  kept_shape rooted out ->
  Forall (fun e => element e /\ e <> "") (rev out).
Proof.
  intros (names & dots & -> & Hn & Hd & _).
  apply List.Forall_rev, Forall_app. split.
  - eapply Forall_impl; [exact Hn|]. intros x (? & ? & _). auto.
  - eapply Forall_impl; [exact Hd|]. intros x ->.
    split; [reflexivity | discriminate].
Qed.


Lemma concat_head (k : string) (ks : list string) (c : ascii) (k' : string) :
  k = String c k' ->
  exists rest, String.concat "/" (k :: ks) = String c rest.
Proof.
  intros ->. destruct ks as [|k2 ks]; simpl; eauto.
Qed.

(** [Clean] is idempotent. *)
Lemma Clean_idempotent (path : string) : Clean (Clean path) = Clean path.
Proof.
  set (rooted := match path with
                 | String c _ => IsPathSeparator c
                 | EmptyString => false
                 end).
  set (out := fold_left (clean_step rooted) (split path) []).
  assert (Hshape : kept_shape rooted out).
  { apply fold_shape; [apply split_elements|].
    exists [], []. split; [reflexivity|]. split; [constructor|].
    split; [constructor | reflexivity]. }
  pose proof (kept_elements _ _ Hshape) as Hkept.
  pose proof (replay_kept _ _ Hshape) as Hreplay.
  assert (Hdef : Clean path
                 = if (if rooted then "/" else "") +:+ String.concat "/" (rev out)
                      =? ""
                   then "."
                   else (if rooted then "/" else "") +:+ String.concat "/" (rev out))
    by reflexivity.
  rewrite Hdef.
  destruct (String.eqb_spec ((if rooted then "/" else "")
                             +:+ String.concat "/" (rev out)) "")
    as [Hempty|Hfull]; [reflexivity|].
  apply String.eqb_neq in Hfull.
  clearbody out. clear Hdef. clearbody rooted.
  unfold Clean.
  destruct rooted.
  - (* rooted *)
    change ("/" +:+ String.concat "/" (rev out))
      with (String "/" (String.concat "/" (rev out))) in *.
    cbn [split]. change (IsPathSeparator "/") with true. cbn iota.
    destruct (rev out) as [|k ks] eqn:Hrev.
    + assert (out = []) as -> by (apply (f_equal (@rev string)) in Hrev;
                                  now rewrite rev_involutive in Hrev).
      reflexivity.
    + rewrite split_concat
        by (eapply Forall_impl; [exact Hkept | now intros ? [? _]]).
      assert (Hf : fold_left (clean_step true) ("" :: k :: ks) [] = out)
        by exact Hreplay.
      rewrite Hf, Hrev. reflexivity.
  - (* relative *)
    change ("" +:+ String.concat "/" (rev out))
      with (String.concat "/" (rev out)) in *.
    destruct (rev out) as [|k ks] eqn:Hrev; [discriminate|].
    apply Forall_cons in Hkept as [[Hk Hk0] Hks].
    destruct k as [|c k']; [now elim Hk0|].
    destruct (concat_head (String c k') ks c k' eq_refl) as [rest Hrest].
    assert (Hc : IsPathSeparator c = false).
    { unfold element in Hk. simpl in Hk. now apply orb_false_elim in Hk as [? _]. }
    assert (Hsplit : split (String.concat "/" (String c k' :: ks))
                     = String c k' :: ks).
    { apply split_concat. constructor; [assumption|].
      eapply Forall_impl; [exact Hks | now intros ? [? _]]. }
    assert (Hroot : match String.concat "/" (String c k' :: ks) with
                    | EmptyString => false
                    | String c0 _ => IsPathSeparator c0
                    end = false) by (rewrite Hrest; exact Hc).
    rewrite Hsplit, Hroot, Hreplay, Hrev.
    change ("" +:+ String.concat "/" (String c k' :: ks))
      with (String.concat "/" (String c k' :: ks)).
    now rewrite Hfull.
Qed.

End CleanIdempotent.

(* ================================================================== *)
(** ** Upload *)
(* ================================================================== *)

#[local] Arguments filepath.Base : simpl never.
#[local] Arguments filepath.Join : simpl never.
#[local] Arguments filepath.Clean : simpl never.
#[local] Arguments renamed : simpl never.
#[local] Arguments String.eqb : simpl never.
#[local] Arguments marshal_store : simpl never.
#[local] Arguments marshal_files : simpl never.
#[local] Arguments remove_at : simpl never.
#[local] Arguments JString : simpl never.

Lemma sanitize_accepts (originalName cleaned : string) :
  sanitize originalName = Some cleaned ->
  cleaned = filepath.Base originalName
  /\ (filepath.Base originalName =? ".") || (filepath.Base originalName =? "/")
     = false.
Proof.
  unfold sanitize. destruct (_ || _); [discriminate|]. intros [= <-]. auto.
Qed.

(** A name the check refuses is answered with "Invalid filename", and
    nothing changes. *)
Lemma upload_invalid_name env w file :
  mkdir_err env = None ->
  sanitize (multipart.Filename file) = None ->
  exec env (uploadHandler (inl file)) w = (Some invalid_filename, w).
Proof.
  intros Hmk Hs. unfold sanitize in Hs.
  destruct (_ || _) eqn:E; [|discriminate].
  unfold uploadHandler. cbn. rewrite Hmk. cbn. now rewrite E.
Qed.

(** An upload that runs to the end answers 200 with the stored name and
    size, appends [stored_meta] to the catalog and writes the index. *)
Lemma upload_ok env w file cleaned :
  mu (webfiles w) = false ->
  mkdir_err env = None -> save_err env = None -> write_err env = None ->
  sanitize (multipart.Filename file) = Some cleaned ->
  let meta := stored_meta env w file in
  let r := exec env (uploadHandler (inl file)) w in
  fst r = Some (fiber.JSON fiber.StatusOK
                  (JObj [("filename", JString (Filename meta));
                         ("size", JNum (multipart.Size file));
                         ("status", JStr "uploaded")]))
  /\ webfiles (snd r)
     = {| Files := Files (webfiles w) ++ [meta]; mu := false |}
  /\ disk (snd r)
     = <[filepath.Clean (Path meta) := multipart.Content file]> (disk w)
  /\ metadata (snd r)
     = Some (Doc (marshal_store (Files (webfiles w) ++ [meta]))).
Proof.
  intros Hmu Hmk Hsave Hwrite Hs.
  apply sanitize_accepts in Hs as [-> Hacc].
  unfold stored_meta, uploadHandler. cbn. rewrite Hmk. cbn. rewrite Hacc. cbn.
  destruct (lookup_path w _); cbn; rewrite Hsave; cbn; rewrite Hmu; cbn;
    rewrite Hwrite; cbn; auto.
Qed.

(** C8. Upload disk-write failure: when saving the uploaded file fails,
    the answer is a 500 carrying the error of the write, and the catalog
    (and the metadata file) are as before: no record is created. *)
Theorem upload_disk_write_failure env w file cleaned e :
  mkdir_err env = None ->
  sanitize (multipart.Filename file) = Some cleaned ->
  save_err env = Some e ->
  let r := exec env (uploadHandler (inl file)) w in
  fst r = Some (fiber.JSON fiber.StatusInternalServerError
                  (fiber.error_map (Error e)))
  /\ webfiles (snd r) = webfiles w
  /\ metadata (snd r) = metadata w.
Proof.
  intros Hmk Hs Hsave.
  apply sanitize_accepts in Hs as [-> Hacc].
  unfold uploadHandler. cbn. rewrite Hmk. cbn. rewrite Hacc. cbn.
  destruct (lookup_path w _); cbn; rewrite Hsave; cbn; auto.
Qed.

(** C8, at an instance: the disk is full when "b.txt" is uploaded. *)
Lemma upload_disk_write_failure_witness :
  let r := exec (upload_unwritable 9) (upload "b.txt" 4 (some_bytes 4)) world_a in
  fst r = Some (fiber.JSON 500 (fiber.error_map "disk full"))
  /\ webfiles (snd r) = webfiles world_a
  /\ metadata (snd r) = metadata world_a.
Proof.
  apply (upload_disk_write_failure (upload_unwritable 9) world_a
           {| multipart.Filename := "b.txt"; multipart.Size := 4;
              multipart.Content := some_bytes 4 |} "b.txt"
           {| notexist := false; Error := "disk full" |});
    reflexivity.
Defined.

(** C7. Upload metadata-persist failure: when the uploaded file is saved
    and writing the index then fails, the answer is the 500
    "Failed to save metadata" (an answer of its own: neither the success
    answer nor the answer of a failed disk write, which carries the text of
    the write error), the catalog in memory keeps the new record, and the
    file is on disk. *)
Theorem upload_metadata_persist_failure env w file cleaned e :
  mu (webfiles w) = false ->
  mkdir_err env = None ->
  sanitize (multipart.Filename file) = Some cleaned ->
  save_err env = None ->
  write_err env = Some e ->
  let meta := stored_meta env w file in
  let r := exec env (uploadHandler (inl file)) w in
  fst r = Some (fiber.JSON fiber.StatusInternalServerError
                  (fiber.error_map "Failed to save metadata"))
  /\ Files (webfiles (snd r)) = Files (webfiles w) ++ [meta]
  /\ lookup_path (snd r) (Path meta) = Some (multipart.Content file).
Proof.
  intros Hmu Hmk Hs Hsave Hwrite.
  apply sanitize_accepts in Hs as [-> Hacc].
  unfold stored_meta, uploadHandler. cbn. rewrite Hmk. cbn. rewrite Hacc. cbn.
  destruct (lookup_path w _); cbn; rewrite Hsave; cbn; rewrite Hmu; cbn;
    rewrite Hwrite; cbn; repeat split; auto.
  - unfold lookup_path. cbn. apply lookup_insert_eq.
  - unfold lookup_path. rewrite Join_uploadDir_nonempty. cbn.
    apply lookup_insert_eq.
Qed.

(** C7, at an instance: the index cannot be written when "b.txt" is
    uploaded. *)
Lemma upload_metadata_persist_failure_witness :
  let r := exec (index_unwritable 9) (upload "b.txt" 4 (some_bytes 4)) world_a in
  fst r = Some (fiber.JSON 500 (fiber.error_map "Failed to save metadata"))
  /\ Files (webfiles (snd r))
     = Files (webfiles world_a)
       ++ [{| Filename := "b.txt"; Size := 4; Path := "uploads/b.txt" |}]
  /\ lookup_path (snd r) "uploads/b.txt" = Some (some_bytes 4).
Proof.
  apply (upload_metadata_persist_failure (index_unwritable 9) world_a
           {| multipart.Filename := "b.txt"; multipart.Size := 4;
              multipart.Content := some_bytes 4 |} "b.txt"
           {| notexist := false; Error := "disk full" |});
    reflexivity.
Defined.

(** C10. The raw name ".." goes through the filename check: its base name
    is "..", which is neither "." nor "/", so the request is not refused
    with "Invalid filename" and the handler goes on to look at the path
    [filepath.Join(uploadDir, "..")], which is ".". *)
Theorem dotdot_passes_filename_check env w size body :
  mkdir_err env = None ->
  sanitize ".." = Some ".."
  /\ fst (exec env (upload ".." size body) w) <> Some invalid_filename
  /\ exists held, (Stat ".", held) ∈ events env (upload ".." size body) w.
Proof.
  intros Hmk. split; [reflexivity|].
  unfold upload, uploadHandler. cbn. rewrite Hmk.
  change (filepath.Base "..") with "..".
  change (filepath.Join uploadDir "..") with ".".
  change ((".." =? ".") || (".." =? "/")) with false.
  cbn. split.
  - destruct (lookup_path w "."); cbn; destruct (save_err env); cbn;
      try discriminate; destruct (mu (webfiles w)); cbn; try discriminate;
      destruct (write_err env); cbn; discriminate.
  - exists (mu (webfiles w)). apply elem_of_cons. right. apply elem_of_cons. now left.
Qed.

(** C10, at an instance. *)
Lemma dotdot_passes_filename_check_witness :
  sanitize ".." = Some ".."
  /\ fst (exec (healthy 3) (upload ".." 4 (some_bytes 4)) world_a)
     <> Some invalid_filename
  /\ exists held,
       (Stat ".", held) ∈ events (healthy 3) (upload ".." 4 (some_bytes 4)) world_a.
Proof.
  apply (dotdot_passes_filename_check (healthy 3) world_a 4 (some_bytes 4)).
  reflexivity.
Defined.


(* ================================================================== *)
(** ** List, download, delete *)
(* ================================================================== *)

Lemma unlocked_eta (w : World) :
  mu (webfiles w) = false -> set_mu false (set_mu true w) = w.
Proof.
  destruct w as [[fs m] d md]. simpl. intros ->. reflexivity.
Qed.

Lemma lookup_path_set_mu b w path :
  lookup_path (set_mu b w) path = lookup_path w path.
Proof. reflexivity. Qed.

Lemma lookup_path_set_files fs w path :
  lookup_path (set_files fs w) path = lookup_path w path.
Proof. reflexivity. Qed.

Lemma files_lists env w :
  mu (webfiles w) = false ->
  exec env filesHandler w
  = (Some (fiber.JSON fiber.StatusOK (marshal_files (Files (webfiles w)))), w).
Proof.
  intros Hmu. unfold filesHandler. cbn. rewrite Hmu. cbn.
  now rewrite unlocked_eta.
Qed.

(** A download that finds its record and the record's file. *)
Lemma download_found env w rawFilename requested found content :
  url.QueryUnescape rawFilename = Some requested ->
  mu (webfiles w) = false ->
  findFile requested (Files (webfiles w)) = Some found ->
  lookup_path w (Path found) = Some content ->
  fst (exec env (downloadHandler rawFilename) w)
  = Some (fiber.Download (Filename found) content).
Proof.
  intros Hq Hmu Hfind Hdisk. unfold downloadHandler. rewrite Hq. cbn.
  rewrite Hmu. cbn. rewrite Hfind.
  cbn -[lookup_path]. rewrite !lookup_path_set_mu, Hdisk.
  cbn -[lookup_path]. rewrite ?lookup_path_set_mu, Hdisk. reflexivity.
Qed.

(** A download that finds its record but nothing at the record's path. *)
Lemma download_missing env w rawFilename requested found :
  url.QueryUnescape rawFilename = Some requested ->
  mu (webfiles w) = false ->
  findFile requested (Files (webfiles w)) = Some found ->
  lookup_path w (Path found) = None ->
  fst (exec env (downloadHandler rawFilename) w)
  = Some (fiber.SendString fiber.StatusNotFound "File not found on disk").
Proof.
  intros Hq Hmu Hfind Hdisk. unfold downloadHandler. rewrite Hq. cbn.
  rewrite Hmu. cbn. rewrite Hfind.
  cbn -[lookup_path]. rewrite !lookup_path_set_mu, Hdisk. reflexivity.
Qed.

Lemma download_unlisted env w rawFilename requested :
  url.QueryUnescape rawFilename = Some requested ->
  mu (webfiles w) = false ->
  findFile requested (Files (webfiles w)) = None ->
  fst (exec env (downloadHandler rawFilename) w)
  = Some (fiber.SendString fiber.StatusNotFound "File not found in metadata").
Proof.
  intros Hq Hmu Hfind. unfold downloadHandler. rewrite Hq. cbn.
  rewrite Hmu. cbn. now rewrite Hfind.
Qed.

(** A download changes nothing. *)
Lemma download_read_only env w rawFilename :
  mu (webfiles w) = false ->
  snd (exec env (downloadHandler rawFilename) w) = w.
Proof.
  intros Hmu. unfold downloadHandler.
  destruct (url.QueryUnescape rawFilename) as [requested|]; [|reflexivity].
  cbn. rewrite Hmu. cbn.
  destruct (findFile requested (Files (webfiles w))) as [found|];
    [|cbn; now apply unlocked_eta].
  cbn -[lookup_path]. rewrite !lookup_path_set_mu.
  destruct (lookup_path w (Path found)) eqn:Hdisk;
    cbn -[lookup_path]; rewrite ?lookup_path_set_mu, ?Hdisk; cbn;
    now apply unlocked_eta.
Qed.

(** C5. Download error discrimination: a name no record carries is
    answered 404 "File not found in metadata"; when records carry it, the
    first of them in the catalog decides: with no file at its path the
    answer is 404 "File not found on disk", otherwise the bytes of the file
    at that path are sent, with the requested name (the record's filename)
    as the name to save under. A name some record carries has such a first
    record, so the cases are all there are; nothing changes in any of
    them. *)
Theorem download_error_discrimination env w rawFilename requested :
  url.QueryUnescape rawFilename = Some requested ->
  mu (webfiles w) = false ->
  let r := exec env (downloadHandler rawFilename) w in
  snd r = w
  /\ (requested ∉ filenames (Files (webfiles w)) ->
      fst r = Some (fiber.SendString fiber.StatusNotFound
                      "File not found in metadata"))
  /\ (forall (before : list FileMeta) found (after : list FileMeta),
        Files (webfiles w) = before ++ found :: after ->
        requested ∉ filenames before ->
        Filename found = requested ->
        match lookup_path w (Path found) with
        | None =>
            fst r = Some (fiber.SendString fiber.StatusNotFound
                            "File not found on disk")
        | Some content =>
            fst r = Some (fiber.Download requested content)
        end)
  /\ (requested ∈ filenames (Files (webfiles w)) ->
      exists (before : list FileMeta) found (after : list FileMeta),
        Files (webfiles w) = before ++ found :: after
        /\ (requested ∉ filenames before)
        /\ Filename found = requested).
Proof.
  intros Hq Hmu r. split; [now apply download_read_only|]. split; [|split].
  - intros Habs. apply findFile_None in Habs.
    exact (download_unlisted env w _ _ Hq Hmu Habs).
  - intros before found after Hfs Hb Hf.
    assert (Hfind : findFile requested (Files (webfiles w)) = Some found)
      by (rewrite Hfs; now apply findFile_first).
    destruct (lookup_path w (Path found)) as [content|] eqn:Hdisk.
    + unfold r. rewrite (download_found env w _ _ _ _ Hq Hmu Hfind Hdisk).
      now rewrite Hf.
    + exact (download_missing env w _ _ _ Hq Hmu Hfind Hdisk).
  - intros Hin.
    destruct (findFile requested (Files (webfiles w))) as [found|] eqn:Hfind.
    + destruct (findFile_Some _ _ _ Hfind) as (before & after & Hfs & Hf & Hb).
      exists before, found, after. auto.
    + apply findFile_None in Hfind. contradiction.
Qed.

(** C5, at three instances: the second record of a catalog, with its file
    on disk; the same record after the upload directory has been emptied;
    a name (given with an escape) that is not catalogued. *)
Lemma download_error_discrimination_witness :
  fst (exec (healthy 3) (downloadHandler "a.txt") world_pair)
  = Some (fiber.Download "a.txt" (some_bytes 12))
  /\ fst (exec (healthy 3) (downloadHandler "a.txt") world_lost)
     = Some (fiber.SendString 404 "File not found on disk")
  /\ fst (exec (healthy 2) (downloadHandler "b%2Etxt") world_a)
     = Some (fiber.SendString 404 "File not found in metadata").
Proof.
  assert (Hfresh : "a.txt" ∉ filenames [{| Filename := "a_5.txt"; Size := 3;
                                           Path := "uploads/a_5.txt" |}]).
  { intros Hin. apply list_elem_of_singleton in Hin. discriminate. }
  split; [|split].
  - destruct (download_error_discrimination (healthy 3) world_pair "a.txt" "a.txt"
                eq_refl eq_refl) as (_ & _ & H & _).
    exact (H [{| Filename := "a_5.txt"; Size := 3; Path := "uploads/a_5.txt" |}]
             {| Filename := "a.txt"; Size := 12; Path := "uploads/a.txt" |} []
             eq_refl Hfresh eq_refl).
  - destruct (download_error_discrimination (healthy 3) world_lost "a.txt" "a.txt"
                eq_refl eq_refl) as (_ & _ & H & _).
    exact (H [{| Filename := "a_5.txt"; Size := 3; Path := "uploads/a_5.txt" |}]
             {| Filename := "a.txt"; Size := 12; Path := "uploads/a.txt" |} []
             eq_refl Hfresh eq_refl).
  - destruct (download_error_discrimination (healthy 2) world_a "b%2Etxt" "b.txt"
                eq_refl eq_refl) as (_ & H & _).
    apply H. vm_compute. intros Hin.
    apply list_elem_of_singleton in Hin. discriminate.
Defined.

(** Deleting a name no record carries: 404, nothing changes. *)
Lemma delete_absent env w rawFilename requested :
  url.QueryUnescape rawFilename = Some requested ->
  mu (webfiles w) = false ->
  requested ∉ filenames (Files (webfiles w)) ->
  exec env (deleteHandler rawFilename) w
  = (Some (fiber.JSON fiber.StatusNotFound
             (fiber.error_map "File not found in metadata")), w).
Proof.
  intros Hq Hmu Habs. unfold deleteHandler. rewrite Hq. cbn. rewrite Hmu. cbn.
  rewrite (findIndex_absent _ _ _ Habs). cbn. now rewrite unlocked_eta.
Qed.

(** Deleting a name some record carries: the first such record leaves the
    catalog, whatever happens on disk; the answer only depends on the
    writing of the index. *)
Lemma delete_present env w rawFilename requested :
  url.QueryUnescape rawFilename = Some requested ->
  mu (webfiles w) = false ->
  requested ∈ filenames (Files (webfiles w)) ->
  exists (before : list FileMeta) f (after : list FileMeta),
    Files (webfiles w) = before ++ f :: after
    /\ Filename f = requested
    /\ (requested ∉ filenames before)
    /\ webfiles (snd (exec env (deleteHandler rawFilename) w))
       = {| Files := before ++ after; mu := false |}
    /\ fst (exec env (deleteHandler rawFilename) w)
       = Some (match write_err env with
               | None => fiber.JSON fiber.StatusOK (marshal_files (before ++ after))
               | Some _ => fiber.JSON fiber.StatusInternalServerError
                             (fiber.error_map "Failed to update metadata")
               end).
Proof.
  intros Hq Hmu Hin.
  destruct (findIndex_present _ _ 0%Z Hin) as (before & f & after & Hfs & Hf & Hb & Hi).
  exists before, f, after. repeat split; try assumption.
  all: unfold deleteHandler; rewrite Hq; cbn; rewrite Hmu; cbn; rewrite Hi;
    destruct (0 + Z.of_nat (List.length before) =? -1)%Z eqn:E; [lia|];
    cbn -[lookup_path]; rewrite lookup_path_set_mu.
  all: destruct (lookup_path w _); [destruct (remove_err env)|];
    cbn; destruct (write_err env); cbn;
    rewrite ?Hfs, ?Z.add_0_l, ?remove_at_middle; reflexivity.
Qed.

(** C6 (amended). Delete semantics: deleting a name present in the
    catalog removes the first record carrying it, whether or not the file
    could be removed from disk and whether or not it was there at all; the
    answer is the remaining list (or a 500 when the index cannot be
    written, the record being gone from memory all the same). When no other
    record carries the name, it is absent from the following listings and a
    second delete is answered 404. *)
Theorem delete_semantics env env' w rawFilename requested :
  url.QueryUnescape rawFilename = Some requested ->
  mu (webfiles w) = false ->
  requested ∈ filenames (Files (webfiles w)) ->
  let r := exec env (deleteHandler rawFilename) w in
  exists (before : list FileMeta) f (after : list FileMeta),
    Files (webfiles w) = before ++ f :: after
    /\ Filename f = requested
    /\ (requested ∉ filenames before)
    /\ Files (webfiles (snd r)) = before ++ after
    /\ fst r
       = Some (match write_err env with
               | None => fiber.JSON fiber.StatusOK (marshal_files (before ++ after))
               | Some _ => fiber.JSON fiber.StatusInternalServerError
                             (fiber.error_map "Failed to update metadata")
               end)
    /\ (requested ∉ filenames after ->
        (requested ∉ filenames (Files (webfiles (snd r))))
        /\ fst (exec env' filesHandler (snd r))
           = Some (fiber.JSON fiber.StatusOK (marshal_files (before ++ after)))
        /\ fst (exec env' (deleteHandler rawFilename) (snd r))
           = Some (fiber.JSON fiber.StatusNotFound
                     (fiber.error_map "File not found in metadata"))).
Proof.
  intros Hq Hmu Hin r.
  destruct (delete_present env w _ _ Hq Hmu Hin)
    as (before & f & after & Hfs & Hf & Hb & Hstore & Hresp).
  fold r in Hstore, Hresp.
  exists before, f, after. repeat split; try assumption.
  - now rewrite Hstore.
  - rewrite Hstore. simpl. unfold filenames. rewrite map_app.
    apply not_elem_of_app. auto.
  - rewrite files_lists; [now rewrite Hstore | now rewrite Hstore].
  - rewrite (delete_absent env' (snd r) _ _ Hq); [reflexivity | now rewrite Hstore |].
    rewrite Hstore. simpl. unfold filenames. rewrite map_app.
    apply not_elem_of_app. auto.
Qed.

(** C6 (amended), at an instance: "a.txt" is deleted while the removal
    from disk is denied, then deleted again. *)
Lemma delete_semantics_witness :
  let r := exec (remove_denied 3) (deleteHandler "a.txt") world_a in
  Files (webfiles (snd r)) = []
  /\ fst r = Some (fiber.JSON 200 (JArr []))
  /\ fst (exec (healthy 4) (deleteHandler "a.txt") (snd r))
     = Some (fiber.JSON 404 (fiber.error_map "File not found in metadata")).
Proof.
  assert (Hin : "a.txt" ∈ filenames (Files (webfiles world_a))) by (left).
  destruct (delete_semantics (remove_denied 3) (healthy 4) world_a "a.txt" "a.txt"
              eq_refl eq_refl Hin)
    as (before & f & after & Hfs & Hf & Hb & Hstore & Hresp & Hnext).
  destruct before as [|g before].
  - injection Hfs as <- <-.
    split; [exact Hstore | split; [exact Hresp |]].
    apply Hnext. apply not_elem_of_nil.
  - exfalso. injection Hfs as <- Hfs. apply Hb. left.
Defined.

(** C6, counterexample. The claim as stated fails when two records carry
    the name: after the uploads of "a_5.txt", "a.txt" and "a.txt" again at
    clock 5, the catalog holds "a_5.txt" twice; deleting "a_5.txt" leaves
    it in the listing, and deleting it again succeeds instead of answering
    404. *)
Lemma delete_twice_counterexample :
  let r1 := exec (healthy 6) (deleteHandler "a_5.txt") world_twice in
  let r2 := exec (healthy 7) (deleteHandler "a_5.txt") (snd r1) in
  filenames (Files (webfiles world_twice)) = ["a_5.txt"; "a.txt"; "a_5.txt"]
  /\ fst (exec (healthy 6) filesHandler (snd r1))
     = Some (fiber.JSON 200
               (JArr [JObj [("filename", JStr "a.txt"); ("size", JNum 12)];
                      JObj [("filename", JStr "a_5.txt"); ("size", JNum 5)]]))
  /\ fst r2
     = Some (fiber.JSON 200
               (JArr [JObj [("filename", JStr "a.txt"); ("size", JNum 12)]]))
  /\ fst r2 <> Some (fiber.JSON fiber.StatusNotFound
                      (fiber.error_map "File not found in metadata")).
Proof.
  vm_compute. split; [reflexivity|]. split; [reflexivity|].
  split; [reflexivity | discriminate].
Qed.

(* ================================================================== *)
(** ** The collision scenario *)
(* ================================================================== *)

Lemma renamed_a_txt (stamp : Z) :
  renamed "a.txt" stamp = "a_" +:+ fmt.d stamp +:+ ".txt".
Proof. reflexivity. Qed.

(** The stamped name is ASCII: it is listed as it is. *)
Lemma stamped_a_txt_listed (stamp size : Z) (path : string) :
  marshal_meta {| Filename := "a_" +:+ fmt.d stamp +:+ ".txt"; Size := size;
                  Path := path |}
  = JObj [("filename", JStr ("a_" +:+ fmt.d stamp +:+ ".txt"));
          ("size", JNum size)].
Proof.
  unfold marshal_meta, JString. cbn [Filename Size].
  rewrite text_valid; [reflexivity|].
  apply valid_ascii. now rewrite !ascii_only_append, d_ascii.
Qed.

(** C9 (amended). Collision scenario. In a process with an empty catalog
    and no "a.txt" in the upload directory, with no I/O fault: after the upload of
    "a.txt" (12 bytes) the listing is [a.txt, 12]; after a second upload of
    "a.txt" (5 bytes) it is the same entry followed by one of 5 bytes whose
    name carries the time stamp of the upload, "a_<stamp>.txt"; after the
    deletion of "a.txt" only the stamped entry is listed. *)
Theorem collision_scenario w t1 t2 t3 env body1 body2 :
  Files (webfiles w) = [] ->
  mu (webfiles w) = false ->
  disk w !! "uploads/a.txt" = None ->
  let w1 := snd (exec (healthy t1) (upload "a.txt" 12 body1) w) in
  let w2 := snd (exec (healthy t2) (upload "a.txt" 5 body2) w1) in
  let w3 := snd (exec (healthy t3) (deleteHandler "a.txt") w2) in
  let stamped := "a_" +:+ fmt.d t2 +:+ ".txt" in
  fst (exec env filesHandler w1)
  = Some (fiber.JSON fiber.StatusOK
            (JArr [JObj [("filename", JStr "a.txt"); ("size", JNum 12)]]))
  /\ fst (exec env filesHandler w2)
     = Some (fiber.JSON fiber.StatusOK
               (JArr [JObj [("filename", JStr "a.txt"); ("size", JNum 12)];
                      JObj [("filename", JStr stamped); ("size", JNum 5)]]))
  /\ stamped <> "a.txt"
  /\ fst (exec env filesHandler w3)
     = Some (fiber.JSON fiber.StatusOK
               (JArr [JObj [("filename", JStr stamped); ("size", JNum 5)]])).
Proof.
  intros Hfs Hmu Hdisk w1 w2 w3 stamped.
  set (file1 := {| multipart.Filename := "a.txt"; multipart.Size := 12;
                   multipart.Content := body1 |}).
  set (file2 := {| multipart.Filename := "a.txt"; multipart.Size := 5;
                   multipart.Content := body2 |}).
  assert (Hlook : lookup_path w "uploads/a.txt" = None) by exact Hdisk.
  (* first upload *)
  assert (Hw1 : webfiles w1
                = {| Files := [{| Filename := "a.txt"; Size := 12;
                                  Path := "uploads/a.txt" |}];
                     mu := false |}
                /\ disk w1 = <["uploads/a.txt" := body1]> (disk w)).
  { destruct (upload_ok (healthy t1) w file1 "a.txt" Hmu eq_refl eq_refl eq_refl eq_refl)
      as (_ & Ha & Hb & _).
    unfold w1, upload. fold file1. rewrite Ha, Hb. unfold stored_meta.
    change (filepath.Join uploadDir (filepath.Base (multipart.Filename file1)))
      with "uploads/a.txt".
    rewrite Hlook, Hfs. split; reflexivity. }
  destruct Hw1 as [Hw1 Hd1].
  assert (Hmu1 : mu (webfiles w1) = false) by now rewrite Hw1.
  assert (Hlook1 : lookup_path w1 "uploads/a.txt" = Some body1).
  { unfold lookup_path. change (filepath.Clean "uploads/a.txt") with "uploads/a.txt".
    rewrite Hd1. cbn. apply lookup_insert_eq. }
  (* second upload *)
  assert (Hw2 : webfiles w2
                = {| Files := [{| Filename := "a.txt"; Size := 12;
                                  Path := "uploads/a.txt" |};
                               {| Filename := stamped; Size := 5;
                                  Path := uploadDir +:+ "/" +:+ stamped |}];
                     mu := false |}).
  { destruct (upload_ok (healthy t2) w1 file2 "a.txt" Hmu1 eq_refl eq_refl eq_refl eq_refl)
      as (_ & Ha & _ & _).
    unfold w2, upload. fold file2. rewrite Ha. unfold stored_meta.
    change (filepath.Join uploadDir (filepath.Base (multipart.Filename file2)))
      with "uploads/a.txt".
    rewrite Hlook1, Hw1. reflexivity. }
  assert (Hmu2 : mu (webfiles w2) = false) by now rewrite Hw2.
  assert (Hne : stamped <> "a.txt") by discriminate.
  (* delete *)
  assert (Hin : "a.txt" ∈ filenames (Files (webfiles w2))) by (rewrite Hw2; left).
  destruct (delete_present (healthy t3) w2 "a.txt" "a.txt" eq_refl Hmu2 Hin)
    as (before & f & after & Hsplit & Hf & Hb & Hw3 & _).
  fold w3 in Hw3. rewrite Hw2 in Hsplit. cbn in Hsplit.
  destruct before as [|g before].
  2:{ exfalso. injection Hsplit as <- _. apply Hb. left. }
  injection Hsplit as <- <-. cbn in Hw3.
  repeat split.
  - rewrite files_lists by exact Hmu1. now rewrite Hw1.
  - rewrite files_lists by exact Hmu2. rewrite Hw2.
    unfold marshal_files. cbn [Files map fst].
    now rewrite (stamped_a_txt_listed t2).
  - exact Hne.
  - rewrite files_lists by now rewrite Hw3. rewrite Hw3.
    unfold marshal_files. cbn [Files map fst].
    now rewrite (stamped_a_txt_listed t2).
Qed.

(** C9 (amended), at an instance: a fresh process, clock readings 100,
    200, 300. *)
Lemma collision_scenario_witness :
  let w1 := snd (exec (healthy 100) (upload "a.txt" 12 (some_bytes 12)) (boot ∅ None)) in
  let w2 := snd (exec (healthy 200) (upload "a.txt" 5 (some_bytes 5)) w1) in
  let w3 := snd (exec (healthy 300) (deleteHandler "a.txt") w2) in
  fst (exec (healthy 400) filesHandler w1)
  = Some (fiber.JSON 200
            (JArr [JObj [("filename", JStr "a.txt"); ("size", JNum 12)]]))
  /\ fst (exec (healthy 400) filesHandler w2)
     = Some (fiber.JSON 200
               (JArr [JObj [("filename", JStr "a.txt"); ("size", JNum 12)];
                      JObj [("filename", JStr "a_200.txt"); ("size", JNum 5)]]))
  /\ "a_200.txt" <> "a.txt"
  /\ fst (exec (healthy 400) filesHandler w3)
     = Some (fiber.JSON 200
               (JArr [JObj [("filename", JStr "a_200.txt"); ("size", JNum 5)]])).
Proof.
  apply (collision_scenario (boot ∅ None) 100 200 300 (healthy 400)
           (some_bytes 12) (some_bytes 5)); reflexivity.
Defined.

(** C9, counterexample. An empty catalog does not make the first upload
    keep its name: the collision test looks at the upload directory. After
    an upload of "a.txt" and a delete of it during which the file could not
    be removed, the catalog is empty and the listing is the empty list; the
    upload of "a.txt" (12 bytes) at clock 7 is then listed as "a_7.txt",
    not as "a.txt". *)
Lemma collision_scenario_counterexample :
  let w1 := snd (exec (healthy 7) (upload "a.txt" 12 (some_bytes 12))
                   world_leftover) in
  Files (webfiles world_leftover) = []
  /\ mu (webfiles world_leftover) = false
  /\ fst (exec (healthy 6) filesHandler world_leftover)
     = Some (fiber.JSON 200 (JArr []))
  /\ lookup_path world_leftover "uploads/a.txt" = Some (some_bytes 12)
  /\ fst (exec (healthy 8) filesHandler w1)
     = Some (fiber.JSON 200
               (JArr [JObj [("filename", JStr "a_7.txt"); ("size", JNum 12)]]))
  /\ fst (exec (healthy 8) filesHandler w1)
     <> Some (fiber.JSON 200
                (JArr [JObj [("filename", JStr "a.txt"); ("size", JNum 12)]])).
Proof.
  vm_compute. split; [reflexivity|]. split; [reflexivity|].
  split; [reflexivity|]. split; [reflexivity|].
  split; [reflexivity | discriminate].
Qed.

(* ================================================================== *)
(** ** Uniqueness of filenames *)
(* ================================================================== *)

Lemma filenames_snoc (files : list FileMeta) (m : FileMeta) :
  filenames (files ++ [m]) = filenames files ++ [Filename m].
Proof. unfold filenames. now rewrite map_app. Qed.

Lemma NoDup_filenames_snoc (files : list FileMeta) (m : FileMeta) :
  NoDup (filenames files) -> Filename m ∉ filenames files ->
  NoDup (filenames (files ++ [m])).
Proof.
  intros Hnd Hfresh. rewrite filenames_snoc. apply NoDup_app.
  split; [assumption|]. split.
  - intros x Hx Hm. apply list_elem_of_singleton in Hm. now subst.
  - apply NoDup_singleton.
Qed.

(** With every catalogued name backed by a file, a path without a file is
    the path of no catalogued name. *)
Lemma unbacked_name_fresh (w : World) (name : string) :
  backed_by_disk w ->
  lookup_path w (filepath.Join uploadDir name) = None ->
  name ∉ filenames (Files (webfiles w)).
Proof.
  intros Hback Hnone Hin.
  apply list_elem_of_fmap in Hin as (m & -> & Hm).
  destruct (Hback m Hm) as [content Hsome]. congruence.
Qed.

(** What an upload does to the catalog: nothing, or one record appended. *)
Lemma upload_catalog env w file :
  let files' := Files (webfiles (snd (exec env (uploadHandler (inl file)) w))) in
  files' = Files (webfiles w)
  \/ (files' = Files (webfiles w) ++ [stored_meta env w file]
      /\ save_err env = None
      /\ exists cleaned, sanitize (multipart.Filename file) = Some cleaned).
Proof.
  unfold uploadHandler, stored_meta, sanitize. cbn.
  destruct (mkdir_err env); cbn; [now left|].
  destruct (_ || _); cbn; [now left|].
  destruct (lookup_path w _); cbn; (destruct (save_err env); cbn; [now left|]);
    right; (split; [|split; [reflexivity | eauto]]);
    destruct (mu (webfiles w)); cbn; try reflexivity;
    destruct (write_err env); reflexivity.
Qed.

(** An upload answered 200 has appended its record. *)
Lemma upload_ok_inv env w file body :
  fst (exec env (uploadHandler (inl file)) w)
  = Some (fiber.JSON fiber.StatusOK body) ->
  Files (webfiles (snd (exec env (uploadHandler (inl file)) w)))
  = Files (webfiles w) ++ [stored_meta env w file].
Proof.
  unfold uploadHandler, stored_meta. cbn.
  destruct (mkdir_err env); cbn; [discriminate|].
  destruct (_ || _); cbn; [discriminate|].
  destruct (lookup_path w _); cbn; (destruct (save_err env); cbn; [discriminate|]);
    (destruct (mu (webfiles w)); cbn; [discriminate|]);
    (destruct (write_err env); cbn; [discriminate|]); reflexivity.
Qed.

Lemma delete_preserves_unique env w rawFilename :
  NoDup (filenames (Files (webfiles w))) ->
  NoDup (filenames (Files (webfiles (snd (exec env (deleteHandler rawFilename) w))))).
Proof.
  intros Hnd.
  destruct (url.QueryUnescape rawFilename) as [requested|] eqn:Hq.
  2:{ unfold deleteHandler. rewrite Hq. exact Hnd. }
  destruct (mu (webfiles w)) eqn:Hmu.
  { unfold deleteHandler. rewrite Hq. cbn. rewrite Hmu. exact Hnd. }
  destruct (decide (requested ∈ filenames (Files (webfiles w)))) as [Hin|Hout].
  - destruct (delete_present env w _ _ Hq Hmu Hin)
      as (before & f & after & Hfs & _ & _ & Hstore & _).
    rewrite Hstore. cbn. rewrite Hfs in Hnd. unfold filenames in *.
    rewrite map_app in *. cbn in Hnd.
    apply NoDup_app in Hnd as (Hb & Hdisj & Ha).
    apply NoDup_cons in Ha as [_ Ha].
    apply NoDup_app. repeat split; auto.
    intros x Hx Hx'. apply (Hdisj x Hx). now right.
  - now rewrite (delete_absent env w _ _ Hq Hmu Hout).
Qed.

(** What an upload does to the catalog and to the disk: nothing, or one
    record appended and its file written. *)
Lemma upload_effect env w file :
  let w' := snd (exec env (uploadHandler (inl file)) w) in
  let meta := stored_meta env w file in
  (Files (webfiles w') = Files (webfiles w) /\ disk w' = disk w)
  \/ (Files (webfiles w') = Files (webfiles w) ++ [meta]
      /\ disk w' = <[filepath.Clean (Path meta) := multipart.Content file]> (disk w)).
Proof.
  unfold uploadHandler, stored_meta. cbn.
  destruct (mkdir_err env); cbn; [now left|].
  destruct (_ || _); cbn; [now left|].
  destruct (lookup_path w _); cbn; (destruct (save_err env); cbn; [now left|]);
    right; destruct (mu (webfiles w)); cbn; try (split; reflexivity);
    destruct (write_err env); split; reflexivity.
Qed.

(** The file of the stored record is where the collision test of a later
    upload of that name looks. *)
Lemma stored_path_key env w file :
  filepath.Clean (filepath.Join uploadDir (Filename (stored_meta env w file)))
  = filepath.Clean (Path (stored_meta env w file)).
Proof.
  unfold stored_meta. destruct (lookup_path w _); cbn; [|reflexivity].
  change (filepath.Join uploadDir (renamed (multipart.Filename file) (now env)))
    with (filepath.Clean (uploadDir +:+ "/"
                          +:+ renamed (multipart.Filename file) (now env))).
  apply Clean_idempotent.
Qed.

(** Uploads keep every catalogued name backed by a file. *)
Lemma upload_keeps_backing env w file :
  backed_by_disk w ->
  backed_by_disk (snd (exec env (uploadHandler (inl file)) w)).
Proof.
  intros Hback.
  destruct (upload_effect env w file) as [[Hf Hd] | [Hf Hd]];
    intros m Hm; rewrite Hf in Hm; unfold lookup_path; rewrite Hd;
    rewrite Join_uploadDir_nonempty.
  - specialize (Hback m Hm). unfold lookup_path in Hback.
    now rewrite Join_uploadDir_nonempty in Hback.
  - apply elem_of_app in Hm as [Hm|Hm].
    + specialize (Hback m Hm). unfold lookup_path in Hback.
      rewrite Join_uploadDir_nonempty in Hback.
      apply lookup_insert_is_Some'. now right.
    + apply list_elem_of_singleton in Hm. subst m.
      rewrite stored_path_key. rewrite lookup_insert_eq. eauto.
Qed.

(** C1 (amended). Filename uniqueness: an upload keeps the catalogued
    filenames distinct provided every catalogued name has its file in the
    upload directory (the collision test looks at the disk, not at the
    catalog) and the stamped name built on a collision is not catalogued
    yet (it is not tested again), and it keeps every catalogued name backed
    by a file; when a file with the base name is there, a successful upload
    stores the record under the stamped name. Deletion keeps the filenames
    distinct without condition. *)
Theorem upload_preserves_unique_filenames env w file :
  NoDup (filenames (Files (webfiles w))) ->
  backed_by_disk w ->
  (is_Some (lookup_path w (filepath.Join uploadDir
                             (filepath.Base (multipart.Filename file)))) ->
   renamed (multipart.Filename file) (now env)
     ∉ filenames (Files (webfiles w))) ->
  let r := exec env (uploadHandler (inl file)) w in
  NoDup (filenames (Files (webfiles (snd r))))
  /\ backed_by_disk (snd r)
  /\ (forall body,
        fst r = Some (fiber.JSON fiber.StatusOK body) ->
        is_Some (lookup_path w (filepath.Join uploadDir
                                  (filepath.Base (multipart.Filename file)))) ->
        filenames (Files (webfiles (snd r)))
        = filenames (Files (webfiles w))
          ++ [renamed (multipart.Filename file) (now env)])
  /\ (forall env' rawFilename,
        NoDup (filenames (Files (webfiles
                 (snd (exec env' (deleteHandler rawFilename) (snd r))))))).
Proof.
  intros Hnd Hback Hstamp r.
  assert (Hr : NoDup (filenames (Files (webfiles (snd r))))).
  { destruct (upload_catalog env w file) as [Hsame | (Happ & _ & _)];
      fold r in Hsame || fold r in Happ.
    - now rewrite Hsame.
    - rewrite Happ. apply NoDup_filenames_snoc; [assumption|].
      unfold stored_meta.
      destruct (lookup_path w _) eqn:Hlook; cbn.
      + apply Hstamp. eauto.
      + now apply unbacked_name_fresh. }
  split; [exact Hr|]. split; [now apply upload_keeps_backing|]. split.
  - intros body Hok [content Hlook]. unfold r.
    rewrite (upload_ok_inv _ _ _ _ Hok), filenames_snoc.
    unfold stored_meta. now rewrite Hlook.
  - intros env' rawFilename. now apply delete_preserves_unique.
Qed.

(** C1 (amended), at an instance: "a.txt" is uploaded a second time. *)
Lemma upload_preserves_unique_filenames_witness :
  let r := exec (healthy 9) (upload "a.txt" 5 (some_bytes 5)) world_a in
  NoDup (filenames (Files (webfiles (snd r))))
  /\ filenames (Files (webfiles (snd r))) = ["a.txt"; "a_9.txt"].
Proof.
  assert (Hnd : NoDup (filenames (Files (webfiles world_a))))
    by apply NoDup_singleton.
  assert (Hback : backed_by_disk world_a).
  { intros m Hm. apply list_elem_of_singleton in Hm. subst m.
    exists (some_bytes 12). vm_compute. reflexivity. }
  assert (Hstamp : is_Some (lookup_path world_a
                              (filepath.Join uploadDir (filepath.Base "a.txt"))) ->
                   renamed "a.txt" 9 ∉ filenames (Files (webfiles world_a))).
  { intros _ Hin. apply list_elem_of_singleton in Hin. discriminate. }
  destruct (upload_preserves_unique_filenames (healthy 9) world_a
              {| multipart.Filename := "a.txt"; multipart.Size := 5;
                 multipart.Content := some_bytes 5 |} Hnd Hback Hstamp)
    as (H1 & _ & H2 & _).
  split; [exact H1|].
  apply (H2 (JObj [("filename", JStr "a_9.txt"); ("size", JNum 5);
                   ("status", JStr "uploaded")])).
  - reflexivity.
  - exists (some_bytes 12). reflexivity.
Defined.

(** C1, counterexample. (1) The stamped name is not tested against
    the catalog: with "a_5.txt" and "a.txt" catalogued (distinct names), the
    upload of "a.txt" at clock 5 stores a second "a_5.txt". (2) The
    collision test looks at the disk: in a process started again on an
    emptied upload directory, the index lists "a.txt"; the upload of
    "a.txt" is stored under the same name, not under a stamped one. *)
Lemma unique_filenames_counterexample :
  NoDup (filenames (Files (webfiles world_pair)))
  /\ sanitize "a.txt" = Some "a.txt"
  /\ filenames (Files (webfiles world_pair)) = ["a_5.txt"; "a.txt"]
  /\ filenames (Files (webfiles world_twice)) = ["a_5.txt"; "a.txt"; "a_5.txt"]
  /\ ~ NoDup (filenames (Files (webfiles world_twice)))
  /\ filenames (Files (webfiles world_orphan)) = ["a.txt"]
  /\ filenames (Files (webfiles
       (snd (exec (healthy 3) (upload "a.txt" 5 (some_bytes 5)) world_orphan))))
     = ["a.txt"; "a.txt"].
Proof.
  split.
  { change (NoDup ["a_5.txt"; "a.txt"]).
    apply NoDup_cons. split; [|apply NoDup_singleton].
    intros H. apply list_elem_of_singleton in H. discriminate. }
  repeat split.
  change (~ NoDup ["a_5.txt"; "a.txt"; "a_5.txt"]).
  intros H. apply NoDup_cons in H as [H _]. apply H. right. left.
Qed.

(* ================================================================== *)
(** ** The metadata file *)
(* ================================================================== *)

Lemma save_ok env w :
  mu (webfiles w) = false -> write_err env = None ->
  exec env saveMetadata w
  = (Some None,
     set_metadata (Some (Doc (marshal_store (Files (webfiles w))))) w).
Proof.
  intros Hmu Hw. unfold saveMetadata, saveMetadataUnlocked. cbn.
  rewrite Hmu. cbn. rewrite Hw. cbn.
  destruct w as [[fs m] d md]. cbn in *. now subst.
Qed.

(** A process that starts on an index written by [saveMetadataUnlocked]
    holds the records of that index as the encoder wrote them, without
    their paths. *)
Lemma load_after_save env d (files : list FileMeta) :
  read_err env = None ->
  Forall (fun m => int64_range (Size m) = true) files ->
  exec env loadMetadata (boot d (Some (Doc (marshal_store files))))
  = (Some tt,
     {| webfiles := {| Files := map read_back files; mu := false |};
        disk := d; metadata := Some (Doc (marshal_store files)) |}).
Proof.
  intros Hr Hsz. unfold loadMetadata. cbn -[unmarshal_store]. rewrite Hr.
  cbn -[unmarshal_store]. now rewrite unmarshal_marshal_store.
Qed.

(** Persisting and starting again: the catalog is the one persisted, read
    back. *)
Lemma restart_after_save env env' w :
  mu (webfiles w) = false ->
  write_err env = None ->
  read_err env' = None ->
  Forall (fun m => int64_range (Size m) = true) (Files (webfiles w)) ->
  fst (exec env saveMetadata w) = Some None
  /\ snd (exec env' loadMetadata (restart (snd (exec env saveMetadata w))))
     = {| webfiles := {| Files := map read_back (Files (webfiles w));
                         mu := false |};
          disk := disk w;
          metadata := Some (Doc (marshal_store (Files (webfiles w)))) |}.
Proof.
  intros Hmu Hw Hr Hsz. rewrite (save_ok env w Hmu Hw). split; [reflexivity|].
  change (restart (snd (Some None,
            set_metadata (Some (Doc (marshal_store (Files (webfiles w))))) w)))
    with (boot (disk w) (Some (Doc (marshal_store (Files (webfiles w)))))).
  now rewrite (load_after_save env' _ _ Hr Hsz).
Qed.

Lemma read_back_paths (files : list FileMeta) :
  Forall (fun m => Path m = "") (map read_back files).
Proof. induction files; constructor; auto. Qed.

(** C2. Persist/load round trip: the catalog is not reproduced. The
    index holds the name and the size of a record, not its path (the field
    is tagged "-"), so a process started again on the index it has just
    persisted holds every record without path: the catalog differs from the
    persisted one as soon as a record has a file, and the download of a
    file that was sent before the restart is answered 404 "File not found
    on disk" after it, the file being on disk all the same. (The sizes are
    int64 values; the requested name is well-formed text.) *)
Theorem reload_loses_paths env env' env1 env2 w rawFilename requested
  (before : list FileMeta) found (after : list FileMeta) content :
  mu (webfiles w) = false ->
  write_err env = None ->
  read_err env' = None ->
  Forall (fun m => int64_range (Size m) = true) (Files (webfiles w)) ->
  url.QueryUnescape rawFilename = Some requested ->
  Files (webfiles w) = before ++ found :: after ->
  requested ∉ filenames before ->
  Filename found = requested ->
  utf8.ValidString requested = true ->
  lookup_path w (Path found) = Some content ->
  let saved := exec env saveMetadata w in
  let reloaded := snd (exec env' loadMetadata (restart (snd saved))) in
  fst saved = Some None
  /\ Files (webfiles reloaded) = map read_back (Files (webfiles w))
  /\ Files (webfiles reloaded) <> Files (webfiles w)
  /\ disk reloaded = disk w
  /\ fst (exec env1 (downloadHandler rawFilename) w)
     = Some (fiber.Download requested content)
  /\ lookup_path reloaded (Path found) = Some content
  /\ fst (exec env2 (downloadHandler rawFilename) reloaded)
     = Some (fiber.SendString fiber.StatusNotFound "File not found on disk").
Proof.
  intros Hmu Hw Hr Hsz Hq Hfs Hb Hf Hvalid Hdisk saved reloaded.
  destruct (restart_after_save env env' w Hmu Hw Hr Hsz) as [Hsaved Hre].
  fold saved in Hsaved, Hre. fold reloaded in Hre.
  assert (Hpath : (Path found =? "") = false).
  { unfold lookup_path in Hdisk. destruct (Path found =? ""); [discriminate|].
    reflexivity. }
  split; [exact Hsaved|].
  split; [now rewrite Hre|].
  split.
  { rewrite Hre. cbn [webfiles Files]. intros Heq.
    pose proof (read_back_paths (Files (webfiles w))) as Hpaths.
    rewrite Heq, Hfs, Forall_forall in Hpaths.
    assert (Hin : found ∈ before ++ found :: after)
      by (apply elem_of_app; right; left).
    rewrite (Hpaths found Hin) in Hpath. discriminate. }
  split; [now rewrite Hre|].
  split.
  { assert (Hfind : findFile requested (Files (webfiles w)) = Some found)
      by (rewrite Hfs; now apply findFile_first).
    rewrite (download_found env1 w _ _ _ _ Hq Hmu Hfind Hdisk).
    now rewrite Hf. }
  split; [now rewrite Hre|].
  assert (Hin : requested ∈ filenames (Files (webfiles reloaded))).
  { rewrite Hre, Hfs. cbn [webfiles Files]. unfold filenames.
    rewrite map_app, map_app. apply elem_of_app. right.
    cbn [map read_back Filename]. rewrite Hf, (text_valid _ Hvalid). left. }
  destruct (findFile requested (Files (webfiles reloaded))) as [r|] eqn:Hfind.
  2:{ apply findFile_None in Hfind. contradiction. }
  apply (download_missing env2 reloaded rawFilename requested r Hq);
    [now rewrite Hre | exact Hfind |].
  destruct (findFile_Some _ _ _ Hfind) as (b' & a' & Hfs' & _ & _).
  pose proof (read_back_paths (Files (webfiles w))) as Hpaths.
  rewrite Forall_forall in Hpaths.
  rewrite (Hpaths r); [reflexivity|].
  rewrite Hre in Hfs'. cbn [webfiles Files] in Hfs'. rewrite Hfs'.
  apply elem_of_app. right. left.
Qed.

(** C2, at an instance: "a.txt" is uploaded to a fresh process, the index
    is persisted and the process started again. *)
Lemma reload_loses_paths_witness :
  let saved := exec (healthy 2) saveMetadata world_a in
  let reloaded := snd (exec (healthy 3) loadMetadata (restart (snd saved))) in
  Files (webfiles world_a)
  = [{| Filename := "a.txt"; Size := 12; Path := "uploads/a.txt" |}]
  /\ Files (webfiles reloaded)
     = [{| Filename := "a.txt"; Size := 12; Path := "" |}]
  /\ fst (exec (healthy 4) (downloadHandler "a.txt") world_a)
     = Some (fiber.Download "a.txt" (some_bytes 12))
  /\ lookup_path reloaded "uploads/a.txt" = Some (some_bytes 12)
  /\ fst (exec (healthy 4) (downloadHandler "a.txt") reloaded)
     = Some (fiber.SendString 404 "File not found on disk").
Proof.
  assert (Hfresh : "a.txt" ∉ filenames []) by apply not_elem_of_nil.
  assert (Hsz : Forall (fun m => int64_range (Size m) = true)
                  (Files (webfiles world_a))) by (repeat constructor).
  destruct (reload_loses_paths (healthy 2) (healthy 3) (healthy 4) (healthy 4)
              world_a "a.txt" "a.txt" []
              {| Filename := "a.txt"; Size := 12; Path := "uploads/a.txt" |} []
              (some_bytes 12)
              eq_refl eq_refl eq_refl Hsz eq_refl eq_refl Hfresh eq_refl
              eq_refl eq_refl)
    as (_ & H2 & _ & _ & H5 & H6 & H7).
  split; [reflexivity|]. split; [exact H2|]. split; [exact H5|].
  split; [exact H6 | exact H7].
Defined.

(* ================================================================== *)
(** ** The mutex *)
(* ================================================================== *)

(** List, download and delete take the mutex before they touch the
    catalog, the disk or the metadata file, and hold it to the end. *)
Lemma filesHandler_critical env w :
  mu (webfiles w) = false ->
  critical_section (events env filesHandler w) = true.
Proof. intros Hmu. unfold filesHandler. cbn. now rewrite Hmu. Qed.

Lemma downloadHandler_critical env w rawFilename :
  mu (webfiles w) = false ->
  critical_section (events env (downloadHandler rawFilename) w) = true.
Proof.
  intros Hmu. unfold downloadHandler.
  destruct (url.QueryUnescape rawFilename) as [requested|]; [|reflexivity].
  cbn. rewrite Hmu. cbn.
  destruct (findFile requested (Files (webfiles w))) as [found|]; [|reflexivity].
  cbn -[lookup_path]. rewrite !lookup_path_set_mu.
  destruct (lookup_path w (Path found)) eqn:Hdisk;
    cbn -[lookup_path]; rewrite ?lookup_path_set_mu, ?Hdisk; reflexivity.
Qed.

Lemma deleteHandler_critical env w rawFilename :
  mu (webfiles w) = false ->
  critical_section (events env (deleteHandler rawFilename) w) = true.
Proof.
  intros Hmu. unfold deleteHandler.
  destruct (url.QueryUnescape rawFilename) as [requested|]; [|reflexivity].
  cbn. rewrite Hmu. cbn.
  destruct (_ =? _)%Z; [reflexivity|].
  cbn -[lookup_path]. rewrite lookup_path_set_mu.
  destruct (lookup_path w _); [destruct (remove_err env)|];
    cbn; destruct (write_err env); reflexivity.
Qed.

(** C3. Serialized atomicity fails for upload: [uploadHandler] looks at
    the disk, saves the file and appends to [webfiles.Files] without the
    mutex; only [saveMetadata], at its end, takes it. So the log of an
    upload is not a critical section, and the write to the catalog is
    performed with the mutex free. *)
Theorem upload_outside_critical_section env w file cleaned :
  mu (webfiles w) = false ->
  mkdir_err env = None ->
  sanitize (multipart.Filename file) = Some cleaned ->
  let log := events env (uploadHandler (inl file)) w in
  critical_section log = false
  /\ (save_err env = None ->
      (SaveFile (Path (stored_meta env w file)) (multipart.Content file), false) ∈ log
      /\ (StoreFiles (Files (webfiles w) ++ [stored_meta env w file]), false) ∈ log
      /\ (MuLock, false) ∈ log).
Proof.
  intros Hmu Hmk Hs. apply sanitize_accepts in Hs as [-> Hacc].
  unfold uploadHandler, stored_meta. cbn. rewrite Hmk. cbn. rewrite Hacc. cbn.
  rewrite Hmu. cbn. split; [reflexivity|].
  intros Hsave.
  destruct (lookup_path w _); cbn; rewrite Hsave; cbn; rewrite Hmu;
    repeat split;
    repeat (first [ apply list_elem_of_here | apply list_elem_of_further ]).
Qed.

(** C3, at an instance: the first upload of a fresh process. *)
Lemma upload_outside_critical_section_witness :
  let log := events (healthy 1) (upload "a.txt" 12 (some_bytes 12)) (boot ∅ None) in
  critical_section log = false
  /\ (SaveFile "uploads/a.txt" (some_bytes 12), false) ∈ log
  /\ (StoreFiles [{| Filename := "a.txt"; Size := 12; Path := "uploads/a.txt" |}],
      false) ∈ log
  /\ (MuLock, false) ∈ log.
Proof.
  destruct (upload_outside_critical_section (healthy 1) (boot ∅ None)
              {| multipart.Filename := "a.txt"; multipart.Size := 12;
                 multipart.Content := some_bytes 12 |} "a.txt"
              eq_refl eq_refl eq_refl) as [H1 H2].
  split; [exact H1 | exact (H2 eq_refl)].
Defined.

(** What this allows. A delete of "a.txt" and an upload of "b.txt" run
    concurrently on [world_a] (goroutine 0 and goroutine 1 of the
    schedule): the upload reads the catalog, the delete then runs from its
    [Lock] to its [Unlock], and the upload writes the catalog back. The
    delete has answered with the empty list and removed the file, and the
    record of "a.txt" is in the catalog and in the index again. *)
Lemma upload_interleaves_with_delete :
  let threads :=
    [(healthy 3, deleteHandler "a.txt");
     (healthy 4, upload "b.txt" 4 (some_bytes 4))] in
  let sched := [1; 1; 1; 1] ++ repeat 0 9 ++ repeat 1 5 in
  let final := run_sched sched threads world_a in
  returned (fst final)
  = [Some (fiber.JSON 200 (JArr []));
     Some (fiber.JSON 200 (JObj [("filename", JStr "b.txt"); ("size", JNum 4);
                                 ("status", JStr "uploaded")]))]
  /\ filenames (Files (webfiles (snd final))) = ["a.txt"; "b.txt"]
  /\ metadata (snd final)
     = Some (Doc (JObj [("files",
          JArr [JObj [("filename", JStr "a.txt"); ("size", JNum 12)];
                JObj [("filename", JStr "b.txt"); ("size", JNum 4)]])]))
  /\ lookup_path (snd final) "uploads/a.txt" = None.
Proof. vm_compute. repeat split. Qed.

(* ================================================================== *)
(** ** The stored filename *)
(* ================================================================== *)

(** The name an accepted upload is stored under is never empty, "." or
    "/"; it is free of separators when no file has the base name in the
    upload directory, and also when the raw name has no separator. *)
Lemma stored_name_plain env w file cleaned :
  sanitize (multipart.Filename file) = Some cleaned ->
  let name := Filename (stored_meta env w file) in
  name <> "" /\ name <> "." /\ name <> "/"
  /\ (lookup_path w (filepath.Join uploadDir cleaned) = None
      \/ gostrings.contains (multipart.Filename file) "/" = false ->
      gostrings.contains name "/" = false).
Proof.
  intros Hs. pose proof (sanitize_plain _ _ Hs) as (H1 & H2 & H3 & H4).
  apply sanitize_accepts in Hs as [-> _].
  unfold stored_meta.
  destruct (lookup_path w _) eqn:Hlook; cbn.
  - pose proof (renamed_not_trivial (multipart.Filename file) (now env))
      as (R1 & R2 & R3).
    split; [|split; [|split]]; try assumption.
    intros [Habs|Hplain]; [discriminate|]. now apply renamed_plain.
  - split; [|split; [|split]]; auto.
Qed.

(** The base name of a path is "/" or has no separator in it. *)
Lemma Base_root_or_plain (path : string) :
  filepath.Base path = "/" \/ gostrings.contains (filepath.Base path) "/" = false.
Proof.
  unfold filepath.Base. destruct (path =? ""); [now right|].
  destruct (filepath.upto_sep _) as [|a l] eqn:El; [now left|]. right.
  rewrite contains_of_list. apply existsb_rev_false.
  rewrite <- El. apply upto_sep_clean.
Qed.

(** A name that comes from [mime/multipart] and passes the filename check
    has no separator in it. *)
Lemma received_plain (name cleaned : string) :
  received name -> sanitize name = Some cleaned ->
  gostrings.contains name "/" = false.
Proof.
  intros [filename ->] Hs. unfold multipart.FileName in *.
  destruct (filename =? ""); [reflexivity|].
  destruct (Base_root_or_plain filename) as [Hroot|Hplain]; [|exact Hplain].
  rewrite Hroot in Hs. discriminate.
Qed.

(** C4. Sanitization postcondition: whatever record an upload appends to
    the catalog, its filename is not empty, not "." and not "/", and, the
    name of the upload being one that [mime/multipart] hands over (a last
    path element already), it has no path separator in it. This holds on
    both branches of the handler: the base name, stored when no file has
    that name in the upload directory, and the stamped name built on a
    collision, which is made from the name as received. *)
Theorem stored_filename_sanitized env w file (m : FileMeta) :
  Files (webfiles (snd (exec env (uploadHandler (inl file)) w)))
  = Files (webfiles w) ++ [m] ->
  Filename m <> "" /\ Filename m <> "." /\ Filename m <> "/"
  /\ (received (multipart.Filename file) ->
      gostrings.contains (Filename m) "/" = false)
  /\ Filename m
     = match lookup_path w (filepath.Join uploadDir
                              (filepath.Base (multipart.Filename file))) with
       | Some _ => renamed (multipart.Filename file) (now env)
       | None => filepath.Base (multipart.Filename file)
       end.
Proof.
  intros Hfiles.
  destruct (upload_catalog env w file) as [Hsame | (Happ & _ & cleaned & Hs)].
  { exfalso. rewrite Hsame in Hfiles.
    apply (f_equal (@List.length FileMeta)) in Hfiles.
    rewrite length_app in Hfiles. simpl in Hfiles. lia. }
  rewrite Happ in Hfiles. apply app_inj_tail in Hfiles as [_ <-].
  destruct (stored_name_plain env w file cleaned Hs) as (H1 & H2 & H3 & H4).
  split; [exact H1|]. split; [exact H2|]. split; [exact H3|]. split.
  - intros Hrecv. apply H4. right. exact (received_plain _ _ Hrecv Hs).
  - unfold stored_meta. cbv zeta.
    destruct (lookup_path w (filepath.Join uploadDir
                               (filepath.Base (multipart.Filename file))));
      reflexivity.
Qed.

(** C4, at an instance on the collision branch: a part sent with the
    filename "../a.txt" is received as "a.txt"; with "a.txt" in the upload
    directory it is stored as "a_7.txt". *)
Lemma stored_filename_sanitized_witness :
  let file := {| multipart.Filename := multipart.FileName "../a.txt";
                 multipart.Size := 5; multipart.Content := some_bytes 5 |} in
  let m := {| Filename := "a_7.txt"; Size := 5; Path := "./uploads/a_7.txt" |} in
  Files (webfiles (snd (exec (healthy 7) (uploadHandler (inl file)) world_a)))
  = Files (webfiles world_a) ++ [m]
  /\ gostrings.contains (Filename m) "/" = false
  /\ Filename m = renamed "a.txt" 7.
Proof.
  intros file m.
  assert (Hrecv : received (multipart.Filename file))
    by (exists "../a.txt"; reflexivity).
  assert (Hfiles : Files (webfiles (snd (exec (healthy 7)
                                          (uploadHandler (inl file)) world_a)))
                   = Files (webfiles world_a) ++ [m]) by reflexivity.
  destruct (stored_filename_sanitized (healthy 7) world_a file m Hfiles)
    as (_ & _ & _ & H4 & H5).
  split; [exact Hfiles|]. split; [exact (H4 Hrecv) | exact H5].
Defined.

(* ================================================================== *)
(** ** Further properties: the mutex discipline *)
(* ================================================================== *)

(** X1. Started with the mutex free, every handler answers and leaves the
    mutex free: no path of [uploadHandler], [filesHandler],
    [downloadHandler] or [deleteHandler] blocks on [webfiles.mu] or returns
    holding it. *)
Theorem handlers_answer_and_release env w form rawFilename :
  mu (webfiles w) = false ->
  (is_Some (fst (exec env (uploadHandler form) w))
   /\ mu (webfiles (snd (exec env (uploadHandler form) w))) = false)
  /\ (is_Some (fst (exec env filesHandler w))
      /\ mu (webfiles (snd (exec env filesHandler w))) = false)
  /\ (is_Some (fst (exec env (downloadHandler rawFilename) w))
      /\ mu (webfiles (snd (exec env (downloadHandler rawFilename) w))) = false)
  /\ (is_Some (fst (exec env (deleteHandler rawFilename) w))
      /\ mu (webfiles (snd (exec env (deleteHandler rawFilename) w))) = false).
Proof.
  intros Hmu. split; [|split; [|split]].
  - unfold uploadHandler. destruct form as [file|msg]; [|cbn; eauto].
    cbn. destruct (mkdir_err env); cbn; [eauto|].
    destruct (_ || _); cbn; [eauto|].
    destruct (lookup_path w _); cbn; (destruct (save_err env); cbn; [eauto|]);
      rewrite Hmu; cbn; destruct (write_err env); cbn; eauto.
  - rewrite files_lists by assumption. cbn. eauto.
  - unfold downloadHandler.
    destruct (url.QueryUnescape rawFilename) as [requested|]; [|cbn; eauto].
    cbn. rewrite Hmu. cbn.
    destruct (findFile requested (Files (webfiles w))) as [found|]; [|cbn; eauto].
    cbn -[lookup_path]. rewrite !lookup_path_set_mu.
    destruct (lookup_path w (Path found)) eqn:Hdisk;
      cbn -[lookup_path]; rewrite ?lookup_path_set_mu, ?Hdisk; cbn; eauto.
  - unfold deleteHandler.
    destruct (url.QueryUnescape rawFilename) as [requested|]; [|cbn; eauto].
    cbn. rewrite Hmu. cbn.
    destruct (_ =? _)%Z; [cbn; eauto|].
    cbn -[lookup_path]. rewrite lookup_path_set_mu.
    destruct (lookup_path w _); [destruct (remove_err env)|];
      cbn; destruct (write_err env); cbn; eauto.
Qed.

(** X1, at an instance: the four requests on [world_a]. *)
Lemma handlers_answer_and_release_witness :
  is_Some (fst (exec (healthy 3) (upload "a.txt" 5 (some_bytes 5)) world_a))
  /\ mu (webfiles (snd (exec (healthy 3) (deleteHandler "a.txt") world_a))) = false.
Proof.
  destruct (handlers_answer_and_release (healthy 3) world_a
              (inl {| multipart.Filename := "a.txt"; multipart.Size := 5;
                      multipart.Content := some_bytes 5 |})
              "a.txt" eq_refl) as ((H1 & _) & _ & _ & (_ & H4)).
  split; [exact H1 | exact H4].
Defined.

(** X2. Listing and downloading change nothing: whatever the request and
    whatever the state of the mutex, [filesHandler] and [downloadHandler]
    leave the catalog, the disk and the metadata file as they were. *)
Theorem list_and_download_read_only env w rawFilename :
  snd (exec env filesHandler w) = w
  /\ snd (exec env (downloadHandler rawFilename) w) = w.
Proof.
  destruct (mu (webfiles w)) eqn:Hmu.
  - split.
    + unfold filesHandler. cbn. now rewrite Hmu.
    + unfold downloadHandler.
      destruct (url.QueryUnescape rawFilename); [|reflexivity].
      cbn. now rewrite Hmu.
  - split; [now rewrite files_lists|].
    unfold downloadHandler.
    destruct (url.QueryUnescape rawFilename) as [requested|]; [|reflexivity].
    cbn. rewrite Hmu. cbn.
    destruct (findFile requested (Files (webfiles w))) as [found|];
      [|cbn; now apply unlocked_eta].
    cbn -[lookup_path]. rewrite !lookup_path_set_mu.
    destruct (lookup_path w (Path found)) eqn:Hdisk;
      cbn -[lookup_path]; rewrite ?lookup_path_set_mu, ?Hdisk; cbn;
      now apply unlocked_eta.
Qed.

(** X3. With the mutex free, list, download and delete perform every
    action on the catalog, the disk and the metadata file with the mutex
    held. *)
Theorem locked_handlers_are_critical_sections env w rawFilename :
  mu (webfiles w) = false ->
  critical_section (events env filesHandler w) = true
  /\ critical_section (events env (downloadHandler rawFilename) w) = true
  /\ critical_section (events env (deleteHandler rawFilename) w) = true.
Proof.
  intros Hmu. split; [|split].
  - now apply filesHandler_critical.
  - now apply downloadHandler_critical.
  - now apply deleteHandler_critical.
Qed.

Lemma locked_handlers_are_critical_sections_witness :
  critical_section (events (healthy 3) filesHandler world_a) = true
  /\ critical_section (events (healthy 3) (downloadHandler "a.txt") world_a) = true
  /\ critical_section (events (healthy 3) (deleteHandler "a.txt") world_a) = true.
Proof.
  apply (locked_handlers_are_critical_sections (healthy 3) world_a "a.txt").
  reflexivity.
Defined.

(* ================================================================== *)
(** ** Further properties: where uploads are stored *)
(* ================================================================== *)

Lemma clean_step_name (rooted : bool) (out : list string) (e : string) :
  name_element e -> filepath.clean_step rooted out e = e :: out.
Proof.
  intros (_ & H1 & H2 & H3). unfold filepath.clean_step.
  destruct (String.eqb_spec e ""); [contradiction|].
  destruct (String.eqb_spec e "."); [contradiction|].
  destruct (String.eqb_spec e ".."); [contradiction|]. reflexivity.
Qed.

(** The upload path of a name element is the element under "uploads". *)
Lemma Join_uploadDir_name (e : string) :
  name_element e -> filepath.Join uploadDir e = "uploads/" +:+ e.
Proof.
  intros He. pose proof He as (Hel & Hne & _).
  change (filepath.Join uploadDir e) with (filepath.Clean ("./uploads/" +:+ e)).
  unfold filepath.Clean.
  change (filepath.split ("./uploads/" +:+ e))
    with ("." :: "uploads" :: filepath.split e).
  rewrite (split_element e Hel).
  change (match "./uploads/" +:+ e with
          | EmptyString => false
          | String c _ => filepath.IsPathSeparator c
          end) with false.
  cbn iota.
  assert (Hfold : fold_left (filepath.clean_step false) ["."; "uploads"; e] []
                  = [e; "uploads"]).
  { change (fold_left (filepath.clean_step false) ["."; "uploads"; e] [])
      with (filepath.clean_step false ["uploads"] e).
    now apply clean_step_name. }
  rewrite Hfold.
  change (rev [e; "uploads"]) with ["uploads"; e].
  change ("" +:+ String.concat "/" ["uploads"; e]) with ("uploads/" +:+ e).
  reflexivity.
Qed.

(** What the filename check accepts is ".." or a name element. *)
Lemma sanitize_name_element (originalName cleaned : string) :
  sanitize originalName = Some cleaned ->
  cleaned = ".." \/ name_element cleaned.
Proof.
  intros Hs. destruct (sanitize_plain _ _ Hs) as (H1 & H2 & _ & H4).
  destruct (String.eqb_spec cleaned "..") as [->|Hdd]; [now left|].
  right. repeat split; assumption.
Qed.

(** The base name of a name without separator is the name itself. *)
Lemma Base_plain (name : string) :
  gostrings.contains name "/" = false -> name <> "" ->
  filepath.Base name = name.
Proof.
  intros Hplain Hne. unfold filepath.Base.
  destruct (String.eqb_spec name ""); [contradiction|].
  assert (Hrev : existsb (fun a => Ascii.eqb a "/")
                   (rev (list_ascii_of_string name)) = false).
  { apply existsb_rev_false. rewrite <- contains_of_list.
    now rewrite string_of_list_ascii_of_string. }
  assert (Hskip : forall l, existsb (fun a => Ascii.eqb a "/") l = false ->
                            filepath.upto_sep (filepath.skip_seps l) = l).
  { induction l as [|a l IH]; [reflexivity|]. simpl. intros H.
    apply orb_false_elim in H as [Ha Hl]. unfold filepath.IsPathSeparator.
    rewrite Ha. simpl. unfold filepath.IsPathSeparator. rewrite Ha.
    f_equal. clear IH Ha.
    induction l as [|b l IH]; [reflexivity|]. simpl in *.
    apply orb_false_elim in Hl as [Hb Hl]. unfold filepath.IsPathSeparator.
    rewrite Hb. f_equal. now apply IH. }
  rewrite (Hskip _ Hrev).
  destruct (rev (list_ascii_of_string name)) as [|a l] eqn:E.
  - apply (f_equal (@rev ascii)) in E. rewrite rev_involutive in E.
    destruct name; [contradiction | discriminate].
  - rewrite <- E, rev_involutive. apply string_of_list_ascii_of_string.
Qed.

(** X4. A name without separator that is not empty, "." or ".." (what a
    browser sends) passes the filename check unchanged, and its upload path
    is "uploads/<name>". *)
Theorem plain_name_accepted_verbatim (name : string) :
  gostrings.contains name "/" = false ->
  name <> "" -> name <> "." -> name <> ".." ->
  sanitize name = Some name
  /\ filepath.Join uploadDir name = "uploads/" +:+ name.
Proof.
  intros Hplain Hne Hnd Hndd.
  assert (Hbase : filepath.Base name = name) by now apply Base_plain.
  split.
  - unfold sanitize. rewrite Hbase.
    destruct (String.eqb_spec name "."); [contradiction|].
    destruct (String.eqb_spec name "/") as [E|_]; [|reflexivity].
    rewrite E in Hplain. discriminate.
  - apply Join_uploadDir_name. repeat split; assumption.
Qed.

Lemma plain_name_accepted_verbatim_witness :
  sanitize "report.pdf" = Some "report.pdf"
  /\ filepath.Join uploadDir "report.pdf" = "uploads/report.pdf".
Proof.
  apply (plain_name_accepted_verbatim "report.pdf");
    [reflexivity | discriminate | discriminate | discriminate].
Defined.

(* ================================================================== *)
(** ** Further properties: how the operations compose *)
(* ================================================================== *)

(** An upload whose file is saved: the record is in the catalog and the
    file on disk, whether or not the index could be written. *)
Lemma upload_saved env w file cleaned :
  mu (webfiles w) = false ->
  mkdir_err env = None -> save_err env = None ->
  sanitize (multipart.Filename file) = Some cleaned ->
  let meta := stored_meta env w file in
  let w' := snd (exec env (uploadHandler (inl file)) w) in
  webfiles w' = {| Files := Files (webfiles w) ++ [meta]; mu := false |}
  /\ disk w'
     = <[filepath.Clean (Path meta) := multipart.Content file]> (disk w).
Proof.
  intros Hmu Hmk Hsave Hs.
  apply sanitize_accepts in Hs as [-> Hacc].
  unfold stored_meta, uploadHandler. cbn. rewrite Hmk. cbn. rewrite Hacc. cbn.
  destruct (lookup_path w _); cbn; rewrite Hsave; cbn; rewrite Hmu; cbn;
    destruct (write_err env); cbn; auto.
Qed.

Lemma stored_path_nonempty env w file :
  (Path (stored_meta env w file) =? "") = false.
Proof.
  unfold stored_meta. destruct (lookup_path w _); cbn.
  - reflexivity.
  - apply Join_uploadDir_nonempty.
Qed.

Lemma findFile_snoc_fresh (files : list FileMeta) (m : FileMeta) :
  Filename m ∉ filenames files ->
  findFile (Filename m) (files ++ [m]) = Some m.
Proof.
  induction files as [|f files IH]; simpl; intros Hfresh.
  - now rewrite String.eqb_refl.
  - apply not_elem_of_cons in Hfresh as [Hne Hfresh].
    destruct (String.eqb_spec (Filename f) (Filename m)); [congruence|].
    now apply IH.
Qed.

(** X5. Whatever the raw name, an accepted upload that does not collide
    is stored directly inside the upload directory: unless the base name is
    "..", the record appended has the base name (which has no separator)
    and the path "uploads/<base name>", and the uploaded bytes are there. *)
Theorem accepted_upload_stays_in_upload_dir env w file cleaned :
  mu (webfiles w) = false ->
  mkdir_err env = None -> save_err env = None ->
  sanitize (multipart.Filename file) = Some cleaned ->
  cleaned <> ".." ->
  lookup_path w (filepath.Join uploadDir cleaned) = None ->
  let w' := snd (exec env (uploadHandler (inl file)) w) in
  Files (webfiles w')
  = Files (webfiles w)
    ++ [{| Filename := cleaned; Size := multipart.Size file;
           Path := "uploads/" +:+ cleaned |}]
  /\ gostrings.contains cleaned "/" = false
  /\ lookup_path w' ("uploads/" +:+ cleaned) = Some (multipart.Content file).
Proof.
  intros Hmu Hmk Hsave Hs Hdd Hfree w'.
  destruct (sanitize_name_element _ _ Hs) as [->|Hname]; [contradiction|].
  pose proof (sanitize_accepts _ _ Hs) as [Hc _].
  destruct (upload_saved env w file cleaned Hmu Hmk Hsave Hs) as [Hweb Hdisk].
  fold w' in Hweb, Hdisk.
  assert (Hmeta : stored_meta env w file
                  = {| Filename := cleaned; Size := multipart.Size file;
                       Path := "uploads/" +:+ cleaned |}).
  { unfold stored_meta. rewrite <- Hc, Hfree.
    now rewrite (Join_uploadDir_name _ Hname). }
  rewrite Hmeta in Hweb, Hdisk. cbn [Path] in Hdisk.
  split; [now rewrite Hweb|]. split; [apply Hname|].
  unfold lookup_path. rewrite Hdisk.
  change ("uploads/" +:+ cleaned =? "") with false.
  apply lookup_insert_eq.
Qed.

Lemma accepted_upload_stays_in_upload_dir_witness :
  let w' := snd (exec (healthy 3)
                   (upload "../../etc/passwd" 4 (some_bytes 4)) world_a) in
  Files (webfiles w')
  = Files (webfiles world_a)
    ++ [{| Filename := "passwd"; Size := 4; Path := "uploads/passwd" |}]
  /\ gostrings.contains "passwd" "/" = false
  /\ lookup_path w' "uploads/passwd" = Some (some_bytes 4).
Proof.
  apply (accepted_upload_stays_in_upload_dir (healthy 3) world_a
           {| multipart.Filename := "../../etc/passwd"; multipart.Size := 4;
              multipart.Content := some_bytes 4 |} "passwd");
    try reflexivity.
  discriminate.
Defined.

(** X6. Upload then download: once an upload has saved its file under a
    name the catalog did not hold, a download of that name sends back the
    uploaded bytes, under that name. *)
Theorem upload_then_download env env' w file cleaned rawFilename :
  mu (webfiles w) = false ->
  mkdir_err env = None -> save_err env = None ->
  sanitize (multipart.Filename file) = Some cleaned ->
  let meta := stored_meta env w file in
  Filename meta ∉ filenames (Files (webfiles w)) ->
  url.QueryUnescape rawFilename = Some (Filename meta) ->
  let w' := snd (exec env (uploadHandler (inl file)) w) in
  fst (exec env' (downloadHandler rawFilename) w')
  = Some (fiber.Download (Filename meta) (multipart.Content file)).
Proof.
  intros Hmu Hmk Hsave Hs meta Hfresh Hq w'.
  destruct (upload_saved env w file cleaned Hmu Hmk Hsave Hs) as [Hweb Hdisk].
  fold meta w' in Hweb, Hdisk.
  apply (download_found env' w' rawFilename (Filename meta) meta).
  - exact Hq.
  - now rewrite Hweb.
  - rewrite Hweb. now apply findFile_snoc_fresh.
  - unfold lookup_path. rewrite Hdisk.
    unfold meta. rewrite stored_path_nonempty. apply lookup_insert_eq.
Qed.

Lemma upload_then_download_witness :
  let w' := snd (exec (healthy 3) (upload "b c.txt" 4 (some_bytes 4)) world_a) in
  fst (exec (healthy 4) (downloadHandler "b%20c.txt") w')
  = Some (fiber.Download "b c.txt" (some_bytes 4)).
Proof.
  apply (upload_then_download (healthy 3) (healthy 4) world_a
           {| multipart.Filename := "b c.txt"; multipart.Size := 4;
              multipart.Content := some_bytes 4 |} "b c.txt" "b%20c.txt");
    try reflexivity.
  intros Hin. apply list_elem_of_singleton in Hin. discriminate.
Defined.

(** What a delete of a catalogued name does to the disk. *)
Lemma delete_disk env w rawFilename requested :
  url.QueryUnescape rawFilename = Some requested ->
  mu (webfiles w) = false ->
  requested ∈ filenames (Files (webfiles w)) ->
  disk (snd (exec env (deleteHandler rawFilename) w))
  = match lookup_path w (filepath.Join uploadDir requested), remove_err env with
    | Some _, None =>
        delete (filepath.Clean (filepath.Join uploadDir requested)) (disk w)
    | _, _ => disk w
    end
  /\ (write_err env = None ->
      metadata (snd (exec env (deleteHandler rawFilename) w))
      = Some (Doc (marshal_store
           (Files (webfiles (snd (exec env (deleteHandler rawFilename) w))))))).
Proof.
  intros Hq Hmu Hin.
  destruct (findIndex_present _ _ 0%Z Hin) as (before & f & after & Hfs & Hf & Hb & Hi).
  unfold deleteHandler; rewrite Hq; cbn; rewrite Hmu; cbn; rewrite Hi.
  destruct (0 + Z.of_nat (List.length before) =? -1)%Z eqn:E; [lia|].
  cbn -[lookup_path]. rewrite lookup_path_set_mu.
  destruct (lookup_path w _); [destruct (remove_err env)|];
    cbn; destruct (write_err env); cbn; split; try reflexivity; discriminate.
Qed.

(** X7. Upload then delete: when an upload is stored under a name the
    catalog did not hold, at a path where no file was, deleting that name
    gives back the catalog and the disk of before the upload, and answers
    with the listing of before. *)
Theorem upload_then_delete env env' w file cleaned rawFilename :
  mu (webfiles w) = false ->
  mkdir_err env = None -> save_err env = None ->
  remove_err env' = None -> write_err env' = None ->
  sanitize (multipart.Filename file) = Some cleaned ->
  let meta := stored_meta env w file in
  Filename meta ∉ filenames (Files (webfiles w)) ->
  lookup_path w (Path meta) = None ->
  url.QueryUnescape rawFilename = Some (Filename meta) ->
  let w' := snd (exec env (uploadHandler (inl file)) w) in
  let r := exec env' (deleteHandler rawFilename) w' in
  fst r = Some (fiber.JSON fiber.StatusOK (marshal_files (Files (webfiles w))))
  /\ webfiles (snd r) = webfiles w
  /\ disk (snd r) = disk w
  /\ metadata (snd r) = Some (Doc (marshal_store (Files (webfiles w)))).
Proof.
  intros Hmu Hmk Hsave Hrm Hwr Hs meta Hfresh Hfree Hq w' r.
  destruct (upload_saved env w file cleaned Hmu Hmk Hsave Hs) as [Hweb Hdisk].
  fold meta w' in Hweb, Hdisk.
  assert (Hmu' : mu (webfiles w') = false) by now rewrite Hweb.
  assert (Hin : Filename meta ∈ filenames (Files (webfiles w'))).
  { rewrite Hweb. cbn. rewrite filenames_snoc. apply elem_of_app. right. left. }
  destruct (delete_present env' w' _ _ Hq Hmu' Hin)
    as (before & f & after & Hfs & Hf & Hb & Hstore & Hresp).
  fold r in Hstore, Hresp.
  assert (Hsplit : before = Files (webfiles w) /\ after = []).
  { rewrite Hweb in Hfs. cbn in Hfs. clear - Hfs Hf Hb Hfresh.
    revert before Hfs Hb. generalize (Files (webfiles w)) as files, Hfresh.
    induction files as [|g files IH]; intros Hfr before Hfs Hb.
    - destruct before as [|b before]; [now injection Hfs as <- <-|].
      destruct before; discriminate.
    - destruct before as [|b before].
      + simpl in Hfs. injection Hfs as Hg _. exfalso. apply Hfr.
        simpl. rewrite Hg, Hf. left.
      + simpl in Hfs. injection Hfs as <- Hfs.
        simpl in Hb, Hfr. apply not_elem_of_cons in Hb as [_ Hb].
        apply not_elem_of_cons in Hfr as [_ Hfr].
        destruct (IH Hfr before Hfs Hb) as [-> ->]. auto. }
  destruct Hsplit as [-> ->]. rewrite app_nil_r in Hstore, Hresp.
  rewrite Hwr in Hresp.
  assert (Hkey : filepath.Clean (filepath.Join uploadDir (Filename meta))
                 = filepath.Clean (Path meta)) by apply stored_path_key.
  assert (Hlook : lookup_path w' (filepath.Join uploadDir (Filename meta))
                  = Some (multipart.Content file)).
  { unfold lookup_path. rewrite Join_uploadDir_nonempty, Hdisk, Hkey.
    apply lookup_insert_eq. }
  destruct (delete_disk env' w' _ _ Hq Hmu' Hin) as [Hd Hm].
  fold r in Hd, Hm. rewrite Hlook, Hrm, Hdisk, Hkey in Hd.
  split; [exact Hresp|]. split.
  - rewrite Hstore. destruct (webfiles w) as [fs m]. cbn in *. now subst.
  - split.
    + rewrite Hd. apply delete_insert_id. 
      unfold lookup_path in Hfree. unfold meta in Hfree.
      now rewrite stored_path_nonempty in Hfree.
    + rewrite (Hm Hwr), Hstore. reflexivity.
Qed.

Lemma upload_then_delete_witness :
  let w' := snd (exec (healthy 3) (upload "b.txt" 4 (some_bytes 4)) world_a) in
  let r := exec (healthy 4) (deleteHandler "b.txt") w' in
  fst r = Some (fiber.JSON 200 (marshal_files (Files (webfiles world_a))))
  /\ webfiles (snd r) = webfiles world_a
  /\ disk (snd r) = disk world_a
  /\ metadata (snd r) = Some (Doc (marshal_store (Files (webfiles world_a)))).
Proof.
  apply (upload_then_delete (healthy 3) (healthy 4) world_a
           {| multipart.Filename := "b.txt"; multipart.Size := 4;
              multipart.Content := some_bytes 4 |} "b.txt" "b.txt");
    try reflexivity.
  intros Hin. apply list_elem_of_singleton in Hin. discriminate.
Defined.

(* ================================================================== *)
(** ** Further properties: what the operations leave alone *)
(* ================================================================== *)

(** X8. The footprint of a delete: a name the catalog does not hold is
    answered without any change, whatever is on disk under that name; and
    for any name, the only path whose content a delete can change, the
    metadata file apart, is [filepath.Join(uploadDir, name)]. *)
Theorem delete_footprint env w rawFilename requested :
  url.QueryUnescape rawFilename = Some requested ->
  let w' := snd (exec env (deleteHandler rawFilename) w) in
  (requested ∉ filenames (Files (webfiles w)) -> w' = w)
  /\ (forall path,
        filepath.Clean path <> filepath.Clean metadataFile ->
        filepath.Clean path <> filepath.Join uploadDir requested ->
        lookup_path w' path = lookup_path w path).
Proof.
  intros Hq w'.
  destruct (mu (webfiles w)) eqn:Hmu.
  { assert (Hw : w' = w)
      by (unfold w', deleteHandler; rewrite Hq; cbn; now rewrite Hmu).
    rewrite Hw. auto. }
  destruct (decide (requested ∈ filenames (Files (webfiles w)))) as [Hin|Hout].
  - split; [contradiction|].
    intros path _ Hpath. unfold lookup_path.
    destruct (delete_disk env w _ _ Hq Hmu Hin) as [Hd _]. fold w' in Hd.
    rewrite Hd.
    destruct (lookup_path w (filepath.Join uploadDir requested));
      [destruct (remove_err env)|]; try reflexivity.
    destruct (path =? ""); [reflexivity|].
    apply lookup_delete_ne.
    change (filepath.Join uploadDir requested)
      with (filepath.Clean (uploadDir +:+ "/" +:+ requested)) in *.
    rewrite Clean_idempotent. auto.
  - assert (Hw : w' = w)
      by (unfold w'; now rewrite (delete_absent env w _ _ Hq Hmu Hout)).
    rewrite Hw. auto.
Qed.

Lemma delete_footprint_witness :
  let w' := snd (exec (healthy 3) (deleteHandler "a%2Etxt") world_pair) in
  ("a.txt" ∉ filenames (Files (webfiles world_pair)) -> w' = world_pair)
  /\ (forall path,
        filepath.Clean path <> filepath.Clean metadataFile ->
        filepath.Clean path <> filepath.Join uploadDir "a.txt" ->
        lookup_path w' path = lookup_path world_pair path).
Proof.
  apply (delete_footprint (healthy 3) world_pair "a%2Etxt" "a.txt").
  reflexivity.
Defined.

(** X9. An upload never removes, changes or reorders the records of the
    catalog: it leaves the catalog as it is or appends one record, and the
    only path whose content it can change, the metadata file apart, is the
    path of that record. *)
Theorem upload_extends_catalog env w form :
  let w' := snd (exec env (uploadHandler form) w) in
  (exists added : list FileMeta,
     Files (webfiles w') = Files (webfiles w) ++ added
     /\ (List.length added <= 1)%nat)
  /\ (forall file path,
        form = inl file ->
        filepath.Clean path <> filepath.Clean metadataFile ->
        filepath.Clean path <> filepath.Clean (Path (stored_meta env w file)) ->
        lookup_path w' path = lookup_path w path).
Proof.
  intros w'. destruct form as [file|msg].
  - destruct (upload_effect env w file) as [[Hf Hd] | [Hf Hd]];
      fold w' in Hf, Hd.
    + split.
      * exists []. rewrite app_nil_r. split; [exact Hf | simpl; lia].
      * intros file' path _ _ _. unfold lookup_path. now rewrite Hd.
    + split.
      * eexists. split; [exact Hf | simpl; lia].
      * intros file' path [= <-] _ Hpath. unfold lookup_path. rewrite Hd.
        destruct (path =? ""); [reflexivity|].
        apply lookup_insert_ne. auto.
  - split.
    + exists []. rewrite app_nil_r. split; [reflexivity | simpl; lia].
    + discriminate.
Qed.

(* ================================================================== *)
(** ** Further properties: the stamped name *)
(* ================================================================== *)

Section LastDot.

Lemma length_append (a b : string) :
  String.length (a +:+ b) = (String.length a + String.length b)%nat.
Proof.
  induction a as [|x a IH]; [reflexivity|].
  change (S (String.length (a +:+ b))
          = S (String.length a + String.length b)).
  now f_equal.
Qed.

Lemma substring_all (s : string) : substring 0 (String.length s) s = s.
Proof. induction s as [|x s IH]; simpl; [reflexivity | now rewrite IH]. Qed.

Lemma LastIndex_lower (s : string) (c : ascii) :
  (-1 <= gostrings.LastIndex s c)%Z.
Proof.
  induction s as [|a s IH]; simpl; [lia|].
  destruct (0 <=? gostrings.LastIndex s c)%Z eqn:E; [lia|].
  destruct (Ascii.eqb a c); lia.
Qed.

(** No occurrence: -1. *)
Lemma LastIndex_absent (s : string) (c : ascii) :
  gostrings.LastIndex s c = (-1)%Z <-> gostrings.contains s c = false.
Proof.
  induction s as [|a s IH]; simpl; [tauto|].
  pose proof (LastIndex_lower s c) as Hl.
  destruct (0 <=? gostrings.LastIndex s c)%Z eqn:E.
  - apply Z.leb_le in E. split; [lia|].
    intros H. apply orb_false_elim in H as [_ H]. apply IH in H. lia.
  - apply Z.leb_gt in E. assert (Hs : gostrings.LastIndex s c = (-1)%Z) by lia.
    apply IH in Hs. rewrite Hs, orb_false_r.
    destruct (Ascii.eqb a c); split; intros; try reflexivity; discriminate || lia.
Qed.

(** An occurrence: the index cuts the string just before its last [c]. *)
Lemma LastIndex_present (s : string) (c : ascii) :
  (0 <= gostrings.LastIndex s c)%Z ->
  exists stem tail,
    s = stem +:+ String c tail
    /\ gostrings.contains tail c = false
    /\ gostrings.slice_to s (gostrings.LastIndex s c) = stem
    /\ gostrings.slice_from s (gostrings.LastIndex s c) = String c tail.
Proof.
  unfold gostrings.slice_to, gostrings.slice_from.
  induction s as [|a s IH]; simpl; [lia|].
  pose proof (LastIndex_lower s c) as Hl.
  destruct (0 <=? gostrings.LastIndex s c)%Z eqn:E.
  - apply Z.leb_le in E. intros _.
    destruct (IH E) as (stem & tail & Hs & Ht & Hto & Hfrom).
    exists (String a stem), tail.
    replace (Z.to_nat (gostrings.LastIndex s c + 1))
      with (S (Z.to_nat (gostrings.LastIndex s c))) by lia.
    simpl. rewrite Hto, Hfrom. repeat split; auto. now rewrite Hs at 1.
  - apply Z.leb_gt in E. assert (Hs : gostrings.LastIndex s c = (-1)%Z) by lia.
    apply LastIndex_absent in Hs.
    destruct (Ascii.eqb_spec a c) as [->|Hne]; [|lia]. intros _.
    exists "", s. simpl. rewrite substring_all. auto.
Qed.

End LastDot.

Lemma renamed_split (originalName : string) (stamp : Z) :
  exists stem ext,
    originalName = stem +:+ ext
    /\ renamed originalName stamp = stem +:+ "_" +:+ fmt.d stamp +:+ ext
    /\ ((ext = "" /\ gostrings.contains originalName "." = false)
        \/ (exists tail, ext = String "." tail
                         /\ gostrings.contains tail "." = false)).
Proof.
  unfold renamed.
  pose proof (LastIndex_lower originalName ".") as Hl.
  destruct (gostrings.LastIndex originalName "." =? -1)%Z eqn:E.
  - apply Z.eqb_eq in E. exists originalName, "".
    split; [|split].
    + clear. induction originalName as [|a s IH]; [reflexivity|].
      change (String a s +:+ "") with (String a (s +:+ "")). now f_equal.
    + reflexivity.
    + left. split; [reflexivity|]. now apply LastIndex_absent.
  - apply Z.eqb_neq in E.
    destruct (LastIndex_present originalName ".") as (stem & tail & Hs & Ht & Hto & Hfrom);
      [lia|].
    exists stem, (String "." tail). rewrite Hto, Hfrom.
    split; [exact Hs|]. split; [reflexivity|]. right. eauto.
Qed.

(** X10. The stamped name is the raw name with "_<stamp>" put in front of
    its last dot, or at its end when it has no dot: taking the insertion
    out gives the raw name back, what follows the last dot (the extension)
    is kept, and the name grows by the underscore and the digits of the
    stamp. *)
Theorem renamed_inserts_stamp (originalName : string) (stamp : Z) :
  exists stem ext,
    originalName = stem +:+ ext
    /\ renamed originalName stamp = stem +:+ "_" +:+ fmt.d stamp +:+ ext
    /\ ((ext = "" /\ gostrings.contains originalName "." = false)
        \/ (exists tail, ext = String "." tail
                         /\ gostrings.contains tail "." = false))
    /\ String.length (renamed originalName stamp)
       = (String.length originalName + 1 + String.length (fmt.d stamp))%nat.
Proof.
  destruct (renamed_split originalName stamp) as (stem & ext & Hn & Hr & Hext).
  exists stem, ext. split; [exact Hn|]. split; [exact Hr|].
  split; [exact Hext|].
  rewrite Hr.
  assert (Hlen : String.length originalName
                 = (String.length stem + String.length ext)%nat)
    by (rewrite Hn at 1; apply length_append).
  rewrite Hlen.
  change (stem +:+ "_" +:+ fmt.d stamp +:+ ext)
    with (stem +:+ String "_" (fmt.d stamp +:+ ext)).
  rewrite !length_append.
  change (String.length (String "_" (fmt.d stamp +:+ ext)))
    with (S (String.length (fmt.d stamp +:+ ext))).
  rewrite length_append. lia.
Qed.

(** The stamped name is longer than the raw name, hence another name. *)
Lemma renamed_differs (originalName : string) (stamp : Z) :
  renamed originalName stamp <> originalName.
Proof.
  destruct (renamed_split originalName stamp)
    as (stem & ext & Hn & Hr & _).
  intros Heq. apply (f_equal String.length) in Heq.
  rewrite Hr in Heq. rewrite Hn in Heq.
  rewrite !length_append in Heq. simpl in Heq. lia.
Qed.

Lemma renamed_name_element (originalName : string) (stamp : Z) :
  gostrings.contains originalName "/" = false ->
  name_element (renamed originalName stamp).
Proof.
  intros Hplain.
  destruct (renamed_not_trivial originalName stamp) as (H1 & H2 & _).
  split; [now apply renamed_plain|]. split; [exact H1|]. split; [exact H2|].
  intros E. pose proof (renamed_has_underscore originalName stamp) as Hu.
  rewrite E in Hu. discriminate.
Qed.

(** X11. A colliding upload never overwrites the file it collides with:
    for a raw name without separator, when a file is already stored under
    the name, the upload is stored under another name and at another path,
    and the file that was there keeps its content, whatever the outcome of
    the upload. *)
Theorem collision_keeps_existing_file env w file cleaned old :
  gostrings.contains (multipart.Filename file) "/" = false ->
  sanitize (multipart.Filename file) = Some cleaned ->
  lookup_path w (filepath.Join uploadDir cleaned) = Some old ->
  let w' := snd (exec env (uploadHandler (inl file)) w) in
  Filename (stored_meta env w file) <> cleaned
  /\ filepath.Clean (Path (stored_meta env w file))
     <> filepath.Join uploadDir cleaned
  /\ lookup_path w' (filepath.Join uploadDir cleaned) = Some old.
Proof.
  intros Hplain Hs Hold w'.
  pose proof (sanitize_accepts _ _ Hs) as [Hc _].
  assert (Hne : multipart.Filename file <> "").
  { intros E. rewrite E in Hs. discriminate. }
  assert (Hbase : cleaned = multipart.Filename file)
    by (rewrite Hc; now apply Base_plain).
  assert (Hmeta : stored_meta env w file
                  = {| Filename := renamed (multipart.Filename file) (now env);
                       Size := multipart.Size file;
                       Path := uploadDir +:+ "/"
                               +:+ renamed (multipart.Filename file) (now env) |}).
  { unfold stored_meta. rewrite <- Hc, Hold. reflexivity. }
  assert (Hkey : filepath.Clean (Path (stored_meta env w file))
                 = "uploads/" +:+ renamed (multipart.Filename file) (now env)).
  { rewrite Hmeta. cbn [Path].
    change (filepath.Clean (uploadDir +:+ "/"
              +:+ renamed (multipart.Filename file) (now env)))
      with (filepath.Join uploadDir (renamed (multipart.Filename file) (now env))).
    apply Join_uploadDir_name. now apply renamed_name_element. }
  assert (Hdiff : filepath.Clean (Path (stored_meta env w file))
                  <> filepath.Join uploadDir cleaned).
  { rewrite Hkey. destruct (sanitize_name_element _ _ Hs) as [->|Hname].
    - change (filepath.Join uploadDir "..") with ".". discriminate.
    - rewrite (Join_uploadDir_name _ Hname), Hbase. intros E.
      injection E as E. now apply renamed_differs in E. }
  split.
  { rewrite Hmeta, Hbase. cbn [Filename]. apply renamed_differs. }
  split; [exact Hdiff|].
  assert (Hidem : filepath.Clean (filepath.Join uploadDir cleaned)
                  = filepath.Join uploadDir cleaned).
  { change (filepath.Join uploadDir cleaned)
      with (filepath.Clean (uploadDir +:+ "/" +:+ cleaned)).
    apply Clean_idempotent. }
  unfold lookup_path in *. rewrite Join_uploadDir_nonempty in *.
  rewrite Hidem in *.
  destruct (upload_effect env w file) as [[_ Hd] | [_ Hd]]; fold w' in Hd;
    rewrite Hd; [exact Hold|].
  rewrite lookup_insert_ne by exact Hdiff. exact Hold.
Qed.

Lemma collision_keeps_existing_file_witness :
  let file := {| multipart.Filename := "a.txt"; multipart.Size := 5;
                 multipart.Content := some_bytes 5 |} in
  let w' := snd (exec (healthy 9) (uploadHandler (inl file)) world_a) in
  Filename (stored_meta (healthy 9) world_a file) <> "a.txt"
  /\ filepath.Clean (Path (stored_meta (healthy 9) world_a file))
     <> filepath.Join uploadDir "a.txt"
  /\ lookup_path w' (filepath.Join uploadDir "a.txt") = Some (some_bytes 12).
Proof.
  apply (collision_keeps_existing_file (healthy 9) world_a
           {| multipart.Filename := "a.txt"; multipart.Size := 5;
              multipart.Content := some_bytes 5 |} "a.txt" (some_bytes 12));
    reflexivity.
Defined.

(* ================================================================== *)
(** ** Further properties: starting on an index *)
(* ================================================================== *)

Section Decoding.

Lemma set_field_path (m : FileMeta) (kv : string * Json) :
  Path (set_field m kv) = Path m.
Proof.
  destruct kv as [k v]. unfold set_field.
  destruct (k =? "filename"); [destruct v; reflexivity|].
  destruct (k =? "size"); [|reflexivity].
  destruct v; try reflexivity. destruct (int64_range n); reflexivity.
Qed.

Lemma decode_meta_path (j : Json) (m : FileMeta) :
  Path (decode_meta j m) = Path m.
Proof.
  destruct j; try reflexivity. simpl.
  revert m. induction fields as [|kv fields IH]; intros m; [reflexivity|].
  simpl. now rewrite IH, set_field_path.
Qed.

Lemma decode_slice_paths (items : list Json) (old : list FileMeta) :
  Forall (fun m => Path m = "") old ->
  Forall (fun m => Path m = "") (decode_slice items old).
Proof.
  revert old. induction items as [|j items IH]; intros old Hold; [constructor|].
  simpl. constructor.
  - rewrite decode_meta_path. destruct Hold; [reflexivity | assumption].
  - apply IH. destruct Hold; [constructor | assumption].
Qed.

(** Whatever the document, decoding it never gives a record a path. *)
Lemma unmarshal_store_paths (j : Json) (old : list FileMeta) :
  Forall (fun m => Path m = "") old ->
  Forall (fun m => Path m = "") (unmarshal_store j old).
Proof.
  destruct j; try (intros H; exact H). simpl.
  revert old. induction fields as [|kv fields IH]; intros old Hold; [exact Hold|].
  simpl. apply IH. destruct (fst kv =? "files"); [|exact Hold].
  destruct (snd kv); try exact Hold. now apply decode_slice_paths.
Qed.

End Decoding.

(** The world [loadMetadata] leaves when the process starts. *)
Lemma load_at_boot env d m :
  exists files,
    exec env loadMetadata (boot d m)
    = (Some tt, {| webfiles := {| Files := files; mu := false |};
                   disk := d; metadata := m |})
    /\ Forall (fun r => Path r = "") files
    /\ (m = None \/ m = Some Garbage \/ is_Some (read_err env) -> files = []).
Proof.
  unfold loadMetadata. cbn -[unmarshal_store].
  destruct m as [[j|]|]; cbn -[unmarshal_store].
  - destruct (read_err env) as [e|] eqn:Hr; cbn -[unmarshal_store].
    + exists []. split; [reflexivity|]. split; [constructor | reflexivity].
    + exists (unmarshal_store j []). split; [reflexivity|].
      split; [apply unmarshal_store_paths; constructor|].
      intros [H|[H|[e H]]]; discriminate.
  - destruct (read_err env); cbn;
      (exists []; split; [reflexivity|]; split; [constructor | reflexivity]).
  - exists []. split; [reflexivity|]. split; [constructor | reflexivity].
Qed.

(** X12. Starting never fails on the index: whatever is in the metadata
    file and whatever the disk does, [loadMetadata] returns with the mutex
    free and leaves the disk and the metadata file untouched; without a
    metadata file, with one that cannot be read or does not parse, the
    catalog is empty. *)
Theorem startup_never_fails env d m :
  let r := exec env loadMetadata (boot d m) in
  fst r = Some tt
  /\ mu (webfiles (snd r)) = false
  /\ disk (snd r) = d
  /\ metadata (snd r) = m
  /\ (m = None \/ m = Some Garbage \/ is_Some (read_err env) ->
      Files (webfiles (snd r)) = []).
Proof.
  destruct (load_at_boot env d m) as (files & -> & _ & Hempty). cbn.
  repeat split. exact Hempty.
Qed.

(** X13. No record read from the index has a path, so in a process that
    has just started on any metadata file no download sends a file: a
    listed name is answered "File not found on disk", whatever is in the
    upload directory. *)
Theorem no_download_after_start env env' d m rawFilename :
  let w := snd (exec env loadMetadata (boot d m)) in
  Forall (fun r => Path r = "") (Files (webfiles w))
  /\ (forall requested,
        url.QueryUnescape rawFilename = Some requested ->
        requested ∈ filenames (Files (webfiles w)) ->
        fst (exec env' (downloadHandler rawFilename) w)
        = Some (fiber.SendString fiber.StatusNotFound "File not found on disk"))
  /\ (forall filename content,
        fst (exec env' (downloadHandler rawFilename) w)
        <> Some (fiber.Download filename content)).
Proof.
  destruct (load_at_boot env d m) as (files & -> & Hpaths & _). cbn [snd].
  set (w := {| webfiles := {| Files := files; mu := false |};
               disk := d; metadata := m |}).
  assert (Hnone : forall requested found,
             findFile requested files = Some found ->
             lookup_path w (Path found) = None).
  { intros requested found Hfind.
    destruct (findFile_Some _ _ _ Hfind) as (before & after & Hfs & _ & _).
    rewrite Forall_forall in Hpaths. rewrite (Hpaths found); [reflexivity|].
    rewrite Hfs. apply elem_of_app. right. left. }
  split; [exact Hpaths|]. split.
  - intros requested Hq Hin.
    destruct (findFile requested files) as [found|] eqn:Hfind.
    + exact (download_missing env' w _ requested found Hq eq_refl Hfind
               (Hnone _ _ Hfind)).
    + apply findFile_None in Hfind. contradiction.
  - intros filename content.
    destruct (url.QueryUnescape rawFilename) as [requested|] eqn:Hq.
    + destruct (findFile requested files) as [found|] eqn:Hfind.
      * rewrite (download_missing env' w _ requested found Hq eq_refl Hfind
                   (Hnone _ _ Hfind)).
        discriminate.
      * rewrite (download_unlisted env' w _ requested Hq eq_refl Hfind).
        discriminate.
    + unfold downloadHandler. rewrite Hq. discriminate.
Qed.

(* ================================================================== *)
(** ** Further properties: the client script *)
(* ================================================================== *)

Section ClientScript.

Lemma unreserved_plain (c : ascii) :
  js.unreserved c = true ->
  Ascii.eqb c "%" = false /\ Ascii.eqb c "+" = false /\ Ascii.eqb c "/" = false.
Proof.
  destruct c as [[] [] [] [] [] [] [] []]; vm_compute; intros H;
    try discriminate H; repeat split.
Qed.

Lemma escape_decodes (c : ascii) :
  let hi := js.hexdigit (nat_of_ascii c / 16) in
  let lo := js.hexdigit (nat_of_ascii c mod 16) in
  url.ishex hi && url.ishex lo = true
  /\ ascii_of_nat (url.unhex hi * 16 + url.unhex lo) = c
  /\ Ascii.eqb hi "/" = false /\ Ascii.eqb lo "/" = false.
Proof.
  destruct c as [[] [] [] [] [] [] [] []]; vm_compute; repeat split.
Qed.

Lemma QueryUnescape_plain (c : ascii) (rest : string) :
  Ascii.eqb c "%" = false -> Ascii.eqb c "+" = false ->
  url.QueryUnescape (String c rest) = String c <$> url.QueryUnescape rest.
Proof. intros H1 H2. simpl. now rewrite H1, H2. Qed.

Lemma QueryUnescape_escape (a b : ascii) (rest : string) :
  url.ishex a && url.ishex b = true ->
  url.QueryUnescape (String "%" (String a (String b rest)))
  = String (ascii_of_nat (url.unhex a * 16 + url.unhex b))
      <$> url.QueryUnescape rest.
Proof.
  intros H.
  change (url.QueryUnescape (String "%" (String a (String b rest))))
    with (if url.ishex a && url.ishex b
          then String (ascii_of_nat (url.unhex a * 16 + url.unhex b))
                 <$> url.QueryUnescape rest
          else None).
  now rewrite H.
Qed.

Lemma encodeURIComponent_cons (c : ascii) (rest : string) :
  js.encodeURIComponent (String c rest)
  = if js.unreserved c then String c (js.encodeURIComponent rest)
    else String "%" (String (js.hexdigit (nat_of_ascii c / 16))
           (String (js.hexdigit (nat_of_ascii c mod 16))
              (js.encodeURIComponent rest))).
Proof. reflexivity. Qed.

Lemma split_last (c : ascii) (stem tail : string) :
  gostrings.contains tail c = false ->
  exists front, js.split c (stem +:+ String c tail) = front ++ [tail]
                /\ front <> [].
Proof.
  intros Ht.
  assert (Hplain : js.split c tail = [tail]).
  { clear stem. induction tail as [|a s IH]; [reflexivity|].
    simpl in Ht. apply orb_false_elim in Ht as [Ha Hs].
    simpl. rewrite Ha. now rewrite (IH Hs). }
  induction stem as [|a stem (front & IH & Hne)].
  - exists [""]. simpl. rewrite Ascii.eqb_refl, Hplain. split; [reflexivity | discriminate].
  - change (js.split c (String a stem +:+ String c tail))
      with (if Ascii.eqb a c then "" :: js.split c (stem +:+ String c tail)
            else match js.split c (stem +:+ String c tail) with
                 | e :: es => String a e :: es
                 | [] => [String a ""]
                 end).
    rewrite IH. destruct (Ascii.eqb a c).
    + exists ("" :: front). split; [reflexivity | discriminate].
    + destruct front as [|f fs]; [contradiction|].
      exists (String a f :: fs). split; [reflexivity | discriminate].
Qed.

Lemma append_assoc3 (a b c : string) : (a +:+ b) +:+ c = a +:+ (b +:+ c).
Proof.
  induction a as [|x a IH]; [reflexivity|].
  change (String x ((a +:+ b) +:+ c) = String x (a +:+ (b +:+ c))).
  now f_equal.
Qed.

End ClientScript.

(** The parameter of the download link is decoded by
    [url.QueryUnescape] to the name it was made from, and is one path
    segment. *)
Lemma download_param_decodes (filename : string) :
  url.QueryUnescape (js.download_param filename) = Some filename
  /\ gostrings.contains (js.download_param filename) "/" = false.
Proof.
  unfold js.download_param.
  induction filename as [|c rest [IHq IHs]]; [split; reflexivity|].
  rewrite encodeURIComponent_cons. destruct (js.unreserved c) eqn:Hu.
  - destruct (unreserved_plain c Hu) as (H1 & H2 & H3). split.
    + rewrite QueryUnescape_plain by assumption. now rewrite IHq.
    + cbn [gostrings.contains]. now rewrite H3, IHs.
  - destruct (escape_decodes c) as (Hhex & Hval & Hhi & Hlo). split.
    + rewrite QueryUnescape_escape by exact Hhex. now rewrite IHq, Hval.
    + cbn [gostrings.contains]. now rewrite Hhi, Hlo, IHs.
Qed.

(** X14. The download link of the page reaches the file it is written
    for: the first record of the catalog that carries a name, the name
    being well-formed text, is listed under that very name, and the link
    [loadFiles] writes for the listed name asks [downloadHandler] for that
    record: when the record's file is on disk, its bytes are sent under the
    name. The parameter of the link has no "/" in it (it is one path
    segment). *)
Theorem listed_link_downloads_file env w
  (before : list FileMeta) found (after : list FileMeta) content :
  mu (webfiles w) = false ->
  Files (webfiles w) = before ++ found :: after ->
  Filename found ∉ filenames before ->
  utf8.ValidString (Filename found) = true ->
  lookup_path w (Path found) = Some content ->
  let param := js.download_param (Filename found) in
  marshal_meta found
  = JObj [("filename", JStr (Filename found)); ("size", JNum (Size found))]
  /\ gostrings.contains param "/" = false
  /\ fst (exec env (downloadHandler param) w)
     = Some (fiber.Download (Filename found) content).
Proof.
  intros Hmu Hfs Hb Hvalid Hdisk param.
  destruct (download_param_decodes (Filename found)) as [Hq Hseg].
  split; [|split; [exact Hseg|]].
  - unfold marshal_meta, JString. now rewrite (text_valid _ Hvalid).
  - apply (download_found env w param (Filename found) found content Hq Hmu);
      [|exact Hdisk].
    rewrite Hfs. now apply findFile_first.
Qed.

(** X14, at an instance: a name with a space and a percent sign. *)
Lemma listed_link_downloads_file_witness :
  let w := snd (exec (healthy 3) (upload "50% off.txt" 4 (some_bytes 4))
                  world_a) in
  js.download_param "50% off.txt" = "50%25%20off.txt"
  /\ fst (exec (healthy 4) (downloadHandler "50%25%20off.txt") w)
     = Some (fiber.Download "50% off.txt" (some_bytes 4)).
Proof.
  intros w. split; [reflexivity|].
  assert (Hfresh : "50% off.txt" ∉ filenames (Files (webfiles world_a))).
  { intros Hin. apply list_elem_of_singleton in Hin. discriminate. }
  destruct (listed_link_downloads_file (healthy 4) w
              (Files (webfiles world_a))
              {| Filename := "50% off.txt"; Size := 4;
                 Path := "uploads/50% off.txt" |} [] (some_bytes 4)
              eq_refl eq_refl Hfresh eq_refl eq_refl) as (_ & _ & H).
  exact H.
Defined.

(** X15. A stamped upload is shown with the icon of the raw name: for a
    raw name with a dot, [getFileIcon] gives the name built on a collision
    the icon it gives the raw name. *)
Theorem stamped_name_keeps_icon (toLowerCase : string -> string)
  (originalName : string) (stamp : Z) :
  gostrings.contains originalName "." = true ->
  js.getFileIcon toLowerCase (renamed originalName stamp)
  = js.getFileIcon toLowerCase originalName.
Proof.
  intros Hdot.
  destruct (renamed_split originalName stamp)
    as (stem & ext & Hn & Hr & [[_ Habs] | (tail & -> & Ht)]); [congruence|].
  assert (Hpop : forall s, js.pop (js.split "." (s +:+ String "." tail)) = tail).
  { intros s. destruct (split_last "." s tail Ht) as (front & -> & _).
    unfold js.pop. apply last_last. }
  assert (Hext : js.pop (js.split "." (renamed originalName stamp))
                 = js.pop (js.split "." originalName)).
  { rewrite Hr, Hn.
    change (stem +:+ "_" +:+ fmt.d stamp +:+ String "." tail)
      with (stem +:+ ("_" +:+ fmt.d stamp) +:+ String "." tail).
    rewrite <- append_assoc3. now rewrite !Hpop. }
  unfold js.getFileIcon. now rewrite Hext.
Qed.

Lemma stamped_name_keeps_icon_witness :
  js.getFileIcon (fun s => s) (renamed "report.pdf" 7)
  = js.getFileIcon (fun s => s) "report.pdf".
Proof.
  apply (stamped_name_keeps_icon (fun s => s) "report.pdf" 7). reflexivity.
Defined.

(* ================================================================== *)
(** ** Further properties: the session gate *)
(* ================================================================== *)

(** X16. No file operation without a session: on the routes of the four
    file handlers the middleware passes the request on exactly when the
    session cookie is there and its token is valid; otherwise it redirects
    to "/login". *)
Theorem file_routes_need_valid_session (valid : string -> bool)
  (path session : string) :
  file_route path ->
  (authMiddleware valid path session = Next
   <-> session <> "" /\ valid session = true)
  /\ (authMiddleware valid path session <> Next ->
      exists clear, authMiddleware valid path session = Redirect "/login" clear).
Proof.
  intros Hroute.
  assert (Hclosed : (path =? "/login") || (path =? "/logout")
                    || HasPrefix path "/public" = false).
  { destruct Hroute as [->|[->|[[f ->]|[f ->]]]]; reflexivity. }
  unfold authMiddleware. rewrite Hclosed.
  destruct (String.eqb_spec session "") as [->|Hne].
  - split; [|eauto]. split; [discriminate | intros [H _]; contradiction].
  - destruct (valid session).
    + split; [|intros H; contradiction]. split; auto.
    + split; [|eauto]. split; [discriminate | intros [_ H]; discriminate].
Qed.

Lemma file_routes_need_valid_session_witness :
  (authMiddleware (fun t => t =? "good") "/download/a.txt" "forged" = Next
   <-> "forged" <> "" /\ ("forged" =? "good") = true)
  /\ (authMiddleware (fun t => t =? "good") "/download/a.txt" "forged" <> Next ->
      exists clear,
        authMiddleware (fun t => t =? "good") "/download/a.txt" "forged"
        = Redirect "/login" clear).
Proof.
  apply (file_routes_need_valid_session (fun t => t =? "good")
           "/download/a.txt" "forged").
  right. right. left. exists "a.txt". reflexivity.
Defined.

(** X17. A started server never accepts a request without PIN: [loadEnv]
    stops the process when LOGIN_PIN or JWT_SECRET_KEY is empty, so the PIN
    [loginHandler] compares with is not empty; a login sets the session
    cookie only for a body carrying exactly that PIN, and a body whose PIN
    is missing or empty is answered 401 without cookie. *)
Theorem login_needs_the_pin (getenv : string -> string)
  (correctPIN jwtSecret : string) :
  loadEnv getenv = Some (correctPIN, jwtSecret) ->
  correctPIN <> "" /\ jwtSecret <> ""
  /\ (forall SignedString now now' body,
        is_Some (login_cookie
                   (loginHandler correctPIN SignedString now now' body)) ->
        body = Some correctPIN)
  /\ (forall SignedString now now',
        loginHandler correctPIN SignedString now now' (Some "")
        = {| login_status := StatusUnauthorized;
             login_body := fiber.error_map "Incorrect PIN";
             login_cookie := None |}).
Proof.
  unfold loadEnv. intros H.
  destruct (String.eqb_spec (getenv "LOGIN_PIN") "") as [|Hpin]; [discriminate|].
  destruct (String.eqb_spec (getenv "JWT_SECRET_KEY") "") as [|Hkey]; [discriminate|].
  injection H as <- <-.
  split; [exact Hpin|]. split; [exact Hkey|]. split.
  - intros sign now now' body [c Hc]. unfold loginHandler in Hc.
    destruct body as [pin|]; [|discriminate].
    destruct (String.eqb_spec pin (getenv "LOGIN_PIN")) as [->|]; [reflexivity|].
    discriminate.
  - intros sign now now'. unfold loginHandler.
    destruct (String.eqb_spec "" (getenv "LOGIN_PIN")) as [E|_]; [|reflexivity].
    now elim Hpin.
Qed.

Lemma login_needs_the_pin_witness :
  let getenv := fun k : string => if k =? "LOGIN_PIN" then "4711" else "key" in
  "4711" <> "" /\ "key" <> ""
  /\ (forall SignedString now now' body,
        is_Some (login_cookie (loginHandler "4711" SignedString now now' body)) ->
        body = Some "4711")
  /\ (forall SignedString now now',
        loginHandler "4711" SignedString now now' (Some "")
        = {| login_status := StatusUnauthorized;
             login_body := fiber.error_map "Incorrect PIN";
             login_cookie := None |}).
Proof.
  intros getenv. apply (login_needs_the_pin getenv "4711" "key"). reflexivity.
Defined.

(* ================================================================== *)
(** ** Further properties: one record, one index *)
(* ================================================================== *)

(** The first record carrying a name splits the catalog in one way only. *)
Lemma first_match_unique (name : string)
  (b1 b2 : list FileMeta) (f1 f2 : FileMeta) (a1 a2 : list FileMeta) :
  b1 ++ f1 :: a1 = b2 ++ f2 :: a2 ->
  Filename f1 = name -> Filename f2 = name ->
  name ∉ filenames b1 -> name ∉ filenames b2 ->
  b1 = b2 /\ f1 = f2 /\ a1 = a2.
Proof.
  revert b2. induction b1 as [|x b1 IH]; intros b2 Heq H1 H2 Hb1 Hb2.
  - destruct b2 as [|y b2]; [now injection Heq as <- <-|].
    simpl in Heq. injection Heq as <- _. exfalso. apply Hb2. simpl.
    rewrite H1. left.
  - destruct b2 as [|y b2].
    + simpl in Heq. injection Heq as -> _. exfalso. apply Hb1. simpl.
      rewrite H2. left.
    + simpl in Heq. injection Heq as <- Heq. simpl in Hb1, Hb2.
      apply not_elem_of_cons in Hb1 as [_ Hb1].
      apply not_elem_of_cons in Hb2 as [_ Hb2].
      destruct (IH b2 Heq H1 H2 Hb1 Hb2) as (-> & -> & ->). auto.
Qed.

(** X18. Download and delete address the same record: the record a delete
    removes for a name is the one a download of that name looks up (the
    first carrying it), though the two handlers search with loops of their
    own. *)
Theorem delete_removes_the_downloaded_record env w rawFilename requested found :
  url.QueryUnescape rawFilename = Some requested ->
  mu (webfiles w) = false ->
  findFile requested (Files (webfiles w)) = Some found ->
  exists before after : list FileMeta,
    Files (webfiles w) = before ++ found :: after
    /\ Files (webfiles (snd (exec env (deleteHandler rawFilename) w)))
       = before ++ after.
Proof.
  intros Hq Hmu Hfind.
  destruct (findFile_Some _ _ _ Hfind) as (b1 & a1 & Hfs1 & Hf1 & Hb1).
  assert (Hin : requested ∈ filenames (Files (webfiles w))).
  { rewrite Hfs1. unfold filenames. rewrite map_app. apply elem_of_app.
    right. simpl. rewrite Hf1. left. }
  destruct (delete_present env w _ _ Hq Hmu Hin)
    as (b2 & f2 & a2 & Hfs2 & Hf2 & Hb2 & Hstore & _).
  rewrite Hfs1 in Hfs2.
  destruct (first_match_unique requested _ _ _ _ _ _ Hfs2 Hf1 Hf2 Hb1 Hb2)
    as (-> & -> & ->).
  exists b2, a2. split; [exact Hfs1 | now rewrite Hstore].
Qed.

Lemma delete_removes_the_downloaded_record_witness :
  exists before after : list FileMeta,
    Files (webfiles world_twice)
    = before ++ {| Filename := "a_5.txt"; Size := 3;
                   Path := "uploads/a_5.txt" |} :: after
    /\ Files (webfiles (snd (exec (healthy 6) (deleteHandler "a_5.txt") world_twice)))
       = before ++ after.
Proof.
  apply (delete_removes_the_downloaded_record (healthy 6) world_twice
           "a_5.txt" "a_5.txt"); reflexivity.
Defined.

(** X19. After a mutation answered 200 the metadata file holds the
    catalog: an upload or a delete that answers 200 leaves the marshalled
    [webfiles.Files] in the metadata file, and the mutex free. *)
Theorem ok_mutation_syncs_index env w file rawFilename :
  (forall body,
     fst (exec env (uploadHandler (inl file)) w)
     = Some (fiber.JSON fiber.StatusOK body) ->
     let w' := snd (exec env (uploadHandler (inl file)) w) in
     metadata w' = Some (Doc (marshal_store (Files (webfiles w'))))
     /\ mu (webfiles w') = false
     /\ body = JObj [("filename", JString (Filename (stored_meta env w file)));
                     ("size", JNum (multipart.Size file));
                     ("status", JStr "uploaded")])
  /\ (forall body,
        fst (exec env (deleteHandler rawFilename) w)
        = Some (fiber.JSON fiber.StatusOK body) ->
        let w' := snd (exec env (deleteHandler rawFilename) w) in
        metadata w' = Some (Doc (marshal_store (Files (webfiles w'))))
        /\ mu (webfiles w') = false
        /\ body = marshal_files (Files (webfiles w'))).
Proof.
  split.
  - intros body. unfold uploadHandler. cbn.
    destruct (mkdir_err env); cbn; [discriminate|].
    destruct (_ || _); cbn; [discriminate|].
    unfold stored_meta.
    destruct (lookup_path w _); cbn; (destruct (save_err env); cbn; [discriminate|]);
      (destruct (mu (webfiles w)); cbn; [discriminate|]);
      (destruct (write_err env); cbn; [discriminate|]);
      intros [= <-]; auto.
  - intros body. unfold deleteHandler.
    destruct (url.QueryUnescape rawFilename) as [requested|]; [|discriminate].
    cbn. destruct (mu (webfiles w)) eqn:Hmu; cbn; [discriminate|].
    destruct (_ =? _)%Z; [discriminate|].
    cbn -[lookup_path]. rewrite lookup_path_set_mu.
    destruct (lookup_path w _); [destruct (remove_err env)|];
      cbn; (destruct (write_err env); cbn; [discriminate|]);
      intros [= <-]; auto.
Qed.

(** X19, at two instances: an upload and a delete on [world_a], both
    answered 200. *)
Lemma ok_mutation_syncs_index_witness :
  let wu := snd (exec (healthy 3) (upload "b.txt" 4 (some_bytes 4)) world_a) in
  let wd := snd (exec (healthy 3) (deleteHandler "a.txt") world_a) in
  metadata wu = Some (Doc (marshal_store (Files (webfiles wu))))
  /\ metadata wd = Some (Doc (marshal_store (Files (webfiles wd)))).
Proof.
  destruct (ok_mutation_syncs_index (healthy 3) world_a
              {| multipart.Filename := "b.txt"; multipart.Size := 4;
                 multipart.Content := some_bytes 4 |} "a.txt") as [Hu Hd].
  split.
  - exact (proj1 (Hu _ eq_refl)).
  - exact (proj1 (Hd _ eq_refl)).
Defined.

(** X20. The listing survives a restart: after the index has been
    persisted, a process started again on it answers [GET /files] with the
    same names and sizes, in the same order, as the process that persisted
    it. (The sizes are int64 values.) *)
Theorem listing_survives_restart env env' env'' w :
  mu (webfiles w) = false ->
  write_err env = None ->
  read_err env' = None ->
  Forall (fun m => int64_range (Size m) = true) (Files (webfiles w)) ->
  let saved := snd (exec env saveMetadata w) in
  let reloaded := snd (exec env' loadMetadata (restart saved)) in
  fst (exec env'' filesHandler reloaded) = fst (exec env'' filesHandler w).
Proof.
  intros Hmu Hw Hr Hsz saved reloaded.
  destruct (restart_after_save env env' w Hmu Hw Hr Hsz) as [_ Hre].
  fold saved reloaded in Hre.
  rewrite !files_lists by (assumption || now rewrite Hre). cbn [fst].
  rewrite Hre. cbn [webfiles Files]. now rewrite marshal_read_back.
Qed.

Lemma listing_survives_restart_witness :
  let saved := snd (exec (healthy 2) saveMetadata world_pair) in
  let reloaded := snd (exec (healthy 3) loadMetadata (restart saved)) in
  fst (exec (healthy 4) filesHandler reloaded)
  = fst (exec (healthy 4) filesHandler world_pair).
Proof.
  apply (listing_survives_restart (healthy 2) (healthy 3) (healthy 4) world_pair);
    try reflexivity.
  repeat constructor.
Defined.
